(** * BOQ Scope Extractor: a model of [app.py] and its verified properties

    The program reads Bill-of-Quantities workbooks, keeps the rows that
    describe pipes, parses a diameter out of each description and lists the
    rows of diameter 80 mm and more.  The workbook reader ([pd.read_excel])
    and the numeric coercion of a cell ([pd.to_numeric]) belong to pandas:
    the first is an input of the model, the second a parameter.  Everything
    the program itself decides is a function below.

    Conventions: Python integers are unbounded and are modelled by [Z];
    [astype(str)] renders an empty cell as the text nan, as pandas 2 does;
    the messages of the diagnostic records are kept byte for byte. *)

From Stdlib Require Import Bool Arith ZArith Lia List Ascii String DecimalString.
Import ListNotations.

Local Open Scope string_scope.
Local Open Scope bool_scope.

(** ** Text

    A Python [str] is modelled by [string]; a character is a code point
    below 256 (ASCII and the Latin-1 supplement). *)
Module Text.

Definition code (c : ascii) : nat := nat_of_ascii c.

(** [c.isspace()], which is also what [\s] matches in a [str] pattern:
    tab, line feed, vertical tab, form feed, carriage return, the four
    separators 0x1c-0x1f, space, next-line 0x85 and no-break space 0xa0. *)
Definition is_space (c : ascii) : bool :=
  let n := code c in
  (((9 <=? n) && (n <=? 13)) || ((28 <=? n) && (n <=? 32))
   || (n =? 133) || (n =? 160))%nat.

(** [\d] in a [str] pattern: a decimal digit. *)
Definition is_digit (c : ascii) : bool :=
  let n := code c in ((48 <=? n) && (n <=? 57))%nat.

(** [c.lower()]: A-Z, and the upper-case letters 0xc0-0xde of Latin-1
    (0xd7, the multiplication sign, is not a letter). *)
Definition lower_char (c : ascii) : ascii :=
  let n := code c in
  if (((65 <=? n) && (n <=? 90))
      || ((192 <=? n) && (n <=? 222) && negb (n =? 215)))%nat
  then ascii_of_nat (n + 32) else c.

(** [s.lower()] *)
Fixpoint lower (s : string) : string :=
  match s with
  | EmptyString => EmptyString
  | String c s' => String (lower_char c) (lower s')
  end.

(** [s.lstrip()] *)
Fixpoint lstrip (s : string) : string :=
  match s with
  | EmptyString => EmptyString
  | String c s' => if is_space c then lstrip s' else s
  end.

(** [s.rstrip()]: a character goes when it is white and nothing but white
    space follows it. *)
Fixpoint rstrip (s : string) : string :=
  match s with
  | EmptyString => EmptyString
  | String c s' =>
      match rstrip s' with
      | EmptyString => if is_space c then EmptyString else String c EmptyString
      | t => String c t
      end
  end.

(** [s.strip()] *)
Definition strip (s : string) : string := rstrip (lstrip s).

(** [s.startswith(w)] *)
Fixpoint startswith (s w : string) {struct w} : bool :=
  match w with
  | EmptyString => true
  | String a w' =>
      match s with
      | EmptyString => false
      | String c s' => Ascii.eqb a c && startswith s' w'
      end
  end.

(** [k in s] for two strings: [k] occurs in [s]. *)
Fixpoint contains (k s : string) : bool :=
  startswith s k ||
  match s with
  | EmptyString => false
  | String _ s' => contains k s'
  end.

(** [s.endswith(w)] *)
Fixpoint endswith (s w : string) : bool :=
  (s =? w) ||
  match s with
  | EmptyString => false
  | String _ s' => endswith s' w
  end.

(** [int(s)] for a string of decimal digits. *)
Definition digit_value (c : ascii) : Z := Z.of_nat (code c - 48).

Fixpoint int_from (acc : Z) (s : string) : Z :=
  match s with
  | EmptyString => acc
  | String c s' => int_from (10 * acc + digit_value c) s'
  end.

Definition int (s : string) : Z := int_from 0 s.

(** Predicates for the statements below. *)

(** [k] is a substring of [s]. *)
Definition substring_of (k s : string) : Prop :=
  exists pre post, s = pre ++ k ++ post.

(** Every character of [s] satisfies [p]. *)
Fixpoint all_chars (p : ascii -> bool) (s : string) : bool :=
  match s with
  | EmptyString => true
  | String c s' => p c && all_chars p s'
  end.

(** A keyword with no white space in it, and not empty: trimming a text
    neither adds nor removes an occurrence of it. *)
Definition solid (k : string) : bool :=
  match k with
  | EmptyString => false
  | String _ _ => all_chars (fun c => negb (is_space c)) k
  end.

(** Any character but the letter m. *)
Definition not_m (c : ascii) : bool := negb (Ascii.eqb c "m").

End Text.

(** ** Regular expressions

    Python's [re] is a backtracking matcher.  The two patterns of the program
    are built from the pieces below; each takes the text still to be read and
    a continuation for the rest of the pattern, and a piece that can match in
    several ways tries them in the order [re] does. *)
Module Re.
Import Text.

Section Matcher.
Context {A : Type}.

(** [c*] for a character class, greedy: as many characters as possible
    first, one fewer whenever the rest of the pattern fails.  The
    continuation receives the text matched and the text left. *)
Fixpoint star (p : ascii -> bool) (s : string)
    (k : string -> string -> option A) : option A :=
  match s with
  | String c s' =>
      if p c then
        match star p s' (fun m rest => k (String c m) rest) with
        | Some r => Some r
        | None => k EmptyString s
        end
      else k EmptyString s
  | EmptyString => k EmptyString s
  end.

(** [c+]: one character of the class, then [c*]. *)
Definition plus (p : ascii -> bool) (s : string)
    (k : string -> string -> option A) : option A :=
  match s with
  | String c s' =>
      if p c then star p s' (fun m rest => k (String c m) rest) else None
  | EmptyString => None
  end.

(** A literal word. *)
Fixpoint lit (w s : string) (k : string -> option A) : option A :=
  match w with
  | EmptyString => k s
  | String a w' =>
      match s with
      | String c s' => if Ascii.eqb a c then lit w' s' k else None
      | EmptyString => None
      end
  end.

(** [a|b]: the left branch first. *)
Definition alt (a b : string -> (string -> option A) -> option A)
    (s : string) (k : string -> option A) : option A :=
  match a s k with
  | Some r => Some r
  | None => b s k
  end.

(** [re.search]: the match at the leftmost position that has one. *)
Fixpoint search (m : string -> option A) (s : string) : option A :=
  match m s with
  | Some r => Some r
  | None =>
      match s with
      | EmptyString => None
      | String _ s' => search m s'
      end
  end.

End Matcher.

(** [(\d+)\s*mm] matched at the start of [s]: group 1 of the match. *)
Definition dia_pattern (s : string) : option string :=
  plus is_digit s (fun group1 s1 =>
  star is_space s1 (fun _ s2 =>
  lit "mm" s2 (fun _ => Some group1))).

(** [k-9|k9] matched at the start of [s]. *)
Definition k9_pattern (s : string) : option unit :=
  alt (lit "k-9") (lit "k9") s (fun _ => Some tt).

(** [k-7] matched at the start of [s]. *)
Definition k7_pattern (s : string) : option unit :=
  lit "k-7" s (fun _ => Some tt).

(** [Series.str.contains(pat)]: whether [re.search(pat, s)] finds a match. *)
Definition str_contains (pat : string -> option unit) (s : string) : bool :=
  match search pat s with
  | Some _ => true
  | None => false
  end.

(** [pattern.sub("", s)] for a pattern that matches one character of the
    class [p]: every such character goes, the others stay in place. *)
Fixpoint remove (p : ascii -> bool) (s : string) : string :=
  match s with
  | EmptyString => EmptyString
  | String c s' => if p c then remove p s' else String c (remove p s')
  end.

(** The head of a text is outside the class [p] (or the text is empty):
    a greedy repetition stops in front of it. *)
Definition stops (p : ascii -> bool) (s : string) : Prop :=
  match s with
  | EmptyString => True
  | String c _ => p c = false
  end.

(** Whether a pattern matches at the start of a text. *)
Definition hit (pat : string -> option unit) (s : string) : bool :=
  match pat s with
  | Some _ => true
  | None => false
  end.

End Re.

(** ** The pandas side

    What a sheet holds and what pandas does with a cell.  The numbers of a
    sheet and their parsing from text are pandas's own and stay abstract. *)
Module Pandas.
Import Text.

(** The numbers pandas works with (int64, float64 without NaN), their
    [str()], and [pd.to_numeric(..., errors='coerce')] on a text, [None]
    standing for NaN. *)
Class Numeric : Type := {
  number : Type;
  number_str : number -> string;
  number_of_text : string -> option number;
  number_zero : number
}.

Section Frames.
Context `{Numeric}.

(** A cell of a sheet: a text, a number, or nothing (NaN). *)
Inductive cell : Type :=
| Text (s : string)
| Num (x : number)
| NaN.

(** [str(x)], which [astype(str)] applies to every cell. *)
Definition cell_str (c : cell) : string :=
  match c with
  | Text s => s
  | Num x => number_str x
  | NaN => "nan"
  end.

(** [pd.to_numeric(x, errors='coerce')]; [None] is NaN. *)
Definition to_numeric (c : cell) : option number :=
  match c with
  | Text s => number_of_text s
  | Num x => Some x
  | NaN => None
  end.

(** [pd.read_excel(path, header=None)]: a grid of cells, no row taken as
    titles. *)
Definition RawSheet : Type := list (list cell).

(** A row of a frame with titles, read by column label: [row[col]]. *)
Definition Row : Type := string -> cell.

(** [pd.read_excel(path, header=i)]: the column labels in sheet order (each
    kept as its text; pandas makes them distinct) and the rows below the
    header. *)
Record DataFrame : Type := {
  columns : list string;
  rows : list Row
}.

(** [row[col] = v] *)
Definition set_cell (col : string) (v : cell) (r : Row) : Row :=
  fun l => if l =? col then v else r l.

(** [df[col] = f(df[col])], cell by cell. *)
Definition assign (col : string) (f : cell -> cell) (df : DataFrame)
    : DataFrame :=
  {| columns := columns df;
     rows := map (fun r => set_cell col (f (r col)) r) (rows df) |}.

(** [Series.replace(table)]: a value equal to a key becomes the key's
    value; every other value stays. *)
Fixpoint replace (table : list (string * string)) (v : string) : string :=
  match table with
  | [] => v
  | (key, new) :: table' => if v =? key then new else replace table' v
  end.

(** A workbook on disk, as the two calls of [pd.read_excel] see it: each
    gives the text of the exception raised or the sheet read. *)
Record Workbook : Type := {
  read_raw : string + RawSheet;
  read_header : nat -> string + DataFrame
}.

End Frames.
End Pandas.

(** ** The program *)
Module App.
Import Text Pandas.

(** [extract_dia(text)] *)
Definition extract_dia (text : string) : option Z :=
  let text := lower text in
  match Re.search Re.dia_pattern text with
  | Some group1 => Some (int group1)
  | None => None
  end.

(** [find_column(columns, keywords)] *)
Fixpoint find_column (columns keywords : list string) : option string :=
  match columns with
  | [] => None
  | col :: columns' =>
      if existsb (fun k => contains k (lower col)) keywords
      then Some col
      else find_column columns' keywords
  end.

(** The table of line 67: the spellings of the metre. *)
Definition unit_synonyms : list (string * string) :=
  [("per metre", "meter"); ("rm", "meter"); ("rmt", "meter");
   ("mtr", "meter"); ("mtrs", "meter")].

(** The words of [is_pipe_row]. *)
Definition pipe_keywords : list string :=
  ["pipe"; "di"; "ci"; "m.s"; "k-7"; "k-9"; "hdpe"; "pvc"; "upvc"].

Section Extractor.
Context `{Numeric}.

(** One dictionary of the result: a failure of a whole file carries three
    keys, an extracted row nine. *)
Record Item : Type := {
  TDR_Folder : string;
  BOQ_File : string;
  Item_Description : string;
  K_9 : string;
  K_7 : string;
  DIA : option Z;
  estimate_rate : option number;
  Units : string;
  Quantity : option number
}.

Inductive record : Type :=
| Diagnostic (tdr_folder boq_file item_description : string)
| Extracted (item : Item).

(** [clean_illegal_chars(value)].  [ILLEGAL_CHARACTERS_RE] is openpyxl's: a
    pattern for one character of a class, here the parameter [illegal].  A
    value that is no [str] is returned as it is. *)
Definition clean_illegal_chars (illegal : ascii -> bool) (value : cell)
    : cell :=
  match value with
  | Text s => Text (Re.remove illegal s)
  | _ => value
  end.

(** [r["TDR Folder"]] and [r["BOQ File"]], the keys every dictionary has. *)
Definition record_folder (r : record) : string :=
  match r with
  | Diagnostic tdr_folder _ _ => tdr_folder
  | Extracted item => TDR_Folder item
  end.

Definition record_file (r : record) : string :=
  match r with
  | Diagnostic _ boq_file _ => boq_file
  | Extracted item => BOQ_File item
  end.

(** The test of line 47 on one row of the raw sheet, every cell rendered
    with [astype(str).str.lower()]. *)
Definition is_header_row (cells : list cell) : bool :=
  let row := map (fun c => lower (cell_str c)) cells in
  existsb (fun cell => contains "desc" cell || contains "item" cell) row
  && existsb (fun cell => contains "unit" cell) row.

(** The loop of lines 44-49 from row [i] on: the first row that passes. *)
Fixpoint first_header_row (i : nat) (sheet : RawSheet) : option nat :=
  match sheet with
  | [] => None
  | cells :: sheet' =>
      if is_header_row cells then Some i else first_header_row (S i) sheet'
  end.

(** [header_row_index] after the loop over [range(min(30, len(df_raw)))]. *)
Definition header_row_index (df_raw : RawSheet) : option nat :=
  first_header_row 0 (firstn (Nat.min 30 (List.length df_raw)) df_raw).

(** Lines 67-69 on one cell of the unit column. *)
Definition normalize_unit (c : cell) : string :=
  replace unit_synonyms (lower (strip (cell_str c))).

(** One row of the frame after lines 67-69. *)
Definition with_normalized_unit (unit_col : string) (row : Row) : Row :=
  set_cell unit_col (Text (normalize_unit (row unit_col))) row.

(** [is_pipe_row(row)] *)
Definition is_pipe_row (desc_col : string) (row : Row) : bool :=
  let desc := lower (cell_str (row desc_col)) in
  existsb (fun x => contains x desc) pipe_keywords.

(** [{True: "Yes", False: ""}] *)
Definition yes_or_empty (b : bool) : string := if b then "Yes" else "".

(** Lines 79-94 for one kept row.  [qty_col] and [rate_col] are tested for
    truth as Python does: [None] and the empty label are false. *)
Definition build_item (tdr_name file_name desc_col unit_col : string)
    (qty_col rate_col : option string) (row : Row) : Item :=
  let description := cell_str (row desc_col) in
  {| TDR_Folder := tdr_name;
     BOQ_File := file_name;
     Item_Description := description;
     K_9 := yes_or_empty (Re.str_contains Re.k9_pattern (lower description));
     K_7 := yes_or_empty (Re.str_contains Re.k7_pattern (lower description));
     DIA := extract_dia description;
     estimate_rate :=
       match rate_col with
       | Some col => if col =? "" then Some number_zero
                     else to_numeric (row col)
       | None => Some number_zero
       end;
     Units := strip (cell_str (row unit_col));
     Quantity :=
       match qty_col with
       | Some col => if col =? "" then None else to_numeric (row col)
       | None => None
       end |}.

(** [process_boq_file(file_path, tdr_name, file_name)].  The two [try]
    blocks turn a failed read into a one-row result; the unit column is
    rewritten in place before the rows are classified and before [Units] is
    read from it. *)
Definition process_boq_file (file : Workbook) (tdr_name file_name : string)
    : list record :=
  match read_raw file with
  | inl e =>
      [Diagnostic tdr_name file_name ("❌ Failed to read file: " ++ e)]
  | inr df_raw =>
  match header_row_index df_raw with
  | None => [Diagnostic tdr_name file_name "⚠️ Header not found"]
  | Some i =>
  match read_header file i with
  | inl e =>
      [Diagnostic tdr_name file_name
         ("❌ Error loading structured data: " ++ e)]
  | inr df =>
  let qty_col := find_column (columns df) ["qty"; "quantity"] in
  let rate_col := find_column (columns df) ["rate"; "amount"; "estimate"] in
  match find_column (columns df) ["desc"; "item"],
        find_column (columns df) ["unit"] with
  | Some desc_col, Some unit_col =>
      if (desc_col =? "") || (unit_col =? "")
      then [Diagnostic tdr_name file_name "⚠️ Missing required columns"]
      else
        let df := assign unit_col (fun c => Text (normalize_unit c)) df in
        let filtered_df := filter (is_pipe_row desc_col) (rows df) in
        match filtered_df with
        | [] => []
        | _ =>
            map (fun row =>
                   Extracted (build_item tdr_name file_name desc_col unit_col
                                qty_col rate_col row))
                filtered_df
        end
  | _, _ => [Diagnostic tdr_name file_name "⚠️ Missing required columns"]
  end end end end.

(** One file of the walk over the unpacked archive: the name of the folder
    it lies in, its own name, and the workbook behind it. *)
Record Entry : Type := {
  tdr_folder : string;
  file : string;
  workbook : Workbook
}.

(** The test of line 109. *)
Definition is_boq_file (file : string) : bool :=
  (endswith (lower file) ".xls" || endswith (lower file) ".xlsx")
  && negb (startswith file "~$").

(** [combined_rows] after the walk. *)
Fixpoint combined_rows (walk : list Entry) : list record :=
  match walk with
  | [] => []
  | e :: walk' =>
      ((if is_boq_file (file e)
        then process_boq_file (workbook e) (tdr_folder e) (file e)
        else [])
       ++ combined_rows walk')%list
  end.

(** The [DIA] column of [pd.DataFrame(combined_rows)] after [pd.to_numeric]:
    a dictionary without the key gives NaN, and so does [None]. *)
Definition dia_of (r : record) : option Z :=
  match r with
  | Diagnostic _ _ _ => None
  | Extracted item => DIA item
  end.

(** [df_summary["DIA"] >= 80]; a comparison with NaN is false. *)
Definition dia_at_least_80 (r : record) : bool :=
  match dia_of r with
  | Some d => (80 <=? d)%Z
  | None => false
  end.

(** Whether a dictionary has the key [DIA]. *)
Definition has_dia_key (r : record) : bool :=
  match r with
  | Diagnostic _ _ _ => false
  | Extracted _ => true
  end.

(** What the page shows in the end. *)
Inductive outcome : Type :=
| Summary (table : list (nat * record))
| NoMatchingRows
| KeyError (key : string).

(** Lines 114-144.  The frame built from the dictionaries has a [DIA] column
    only if one of them has the key; the table is the rows kept by the
    filter, numbered from 1.  (Its last step, every cell turned into text,
    changes no row and is left out.) *)
Definition main (walk : list Entry) : outcome :=
  let combined_rows := combined_rows walk in
  match combined_rows with
  | [] => NoMatchingRows
  | _ =>
      if existsb has_dia_key combined_rows then
        let df_summary := filter dia_at_least_80 combined_rows in
        Summary (combine (seq 1 (List.length df_summary)) df_summary)
      else KeyError "DIA"
  end.

End Extractor.
End App.

(** ** Concrete inputs

    Sheets for the examples below: whole numbers for the numeric cells, and
    workbooks that pandas reads back cell for cell. *)
Module Fixtures.
Import Text Pandas App.

#[export] Instance whole_numbers : Numeric := {|
  number := Z;
  number_str := fun z => NilZero.string_of_int (Z.to_int z);
  number_of_text := fun s => option_map Z.of_int (NilZero.int_of_string s);
  number_zero := 0%Z
|}.

(** The class of openpyxl's [ILLEGAL_CHARACTERS_RE]: the control characters
    below 32 other than tab, line feed and carriage return. *)
Definition openpyxl_illegal (c : ascii) : bool :=
  let n := code c in
  ((n <=? 8) || ((11 <=? n) && (n <=? 12)) || ((14 <=? n) && (n <=? 31)))%nat.

(** The position of a label among the column labels. *)
Fixpoint position (l : string) (labels : list string) : option nat :=
  match labels with
  | [] => None
  | l' :: labels' =>
      if l =? l' then Some 0 else option_map S (position l labels')
  end.

(** The frame under the header row [i] of a grid: the cells of row [i] are
    the labels, the rows below it the data. *)
Definition frame_of (sheet : RawSheet) (i : nat) : DataFrame :=
  let labels := map cell_str (nth i sheet []) in
  {| columns := labels;
     rows := map (fun cells l =>
                    match position l labels with
                    | Some j => nth j cells NaN
                    | None => NaN
                    end)
                 (skipn (S i) sheet) |}.

Definition book_of (sheet : RawSheet) : Workbook :=
  {| read_raw := inr sheet;
     read_header := fun i => inr (frame_of sheet i) |}.

(** A file that cannot be read at all. *)
Definition broken_book : Workbook :=
  {| read_raw := inl "File is not a zip file";
     read_header := fun _ => inl "File is not a zip file" |}.


(** Folder TDR-A of the end-to-end scenario: one K-9 pipe of 100 mm, its
    unit written RMT, under a banner line. *)
Definition sheet_a : RawSheet :=
  [ [Text "Bill of Quantities"; NaN; NaN; NaN];
    [Text "Item Description"; Text "Unit"; Text "Qty"; Text "Rate"];
    [Text "DI K-9 Pipe 100mm"; Text " RMT "; Num 12%Z; Text "450"];
    [Text "Cement Concrete Work"; Text "Cum"; Num 3%Z; Num 90%Z] ].

(** Folder TDR-B: one pipe of 60 mm, no quantity and no rate column. *)
Definition sheet_b : RawSheet :=
  [ [Text "Description"; Text "Units"];
    [Text "RCC Pipe 60mm"; Text "Each"] ].



(** The record expected from the one pipe row of [sheet_a]. *)
Definition item_a : Item :=
  {| TDR_Folder := "TDR-A";
     BOQ_File := "boq.xlsx";
     Item_Description := "DI K-9 Pipe 100mm";
     K_9 := "Yes";
     K_7 := "";
     DIA := Some 100%Z;
     estimate_rate := Some 450%Z;
     Units := "meter";
     Quantity := Some 12%Z |}.

(** Twenty-nine banner rows and then the titles: the titles are found.  One
    more banner row and they are not. *)
Definition banner_row : list cell := [Text "Bill of Quantities"; NaN].

Definition title_row : list cell := [Text "Item Description"; Text "Unit"].

Definition banners (n : nat) : RawSheet :=
  (repeat banner_row n ++ [title_row])%list.

Definition entry_a : Entry :=
  {| tdr_folder := "TDR-A"; file := "boq.xlsx"; workbook := book_of sheet_a |}.

Definition entry_b : Entry :=
  {| tdr_folder := "TDR-B"; file := "BOQ.XLS"; workbook := book_of sheet_b |}.

Definition entry_broken : Entry :=
  {| tdr_folder := "TDR-C"; file := "bad.xlsx"; workbook := broken_book |}.

End Fixtures.

(** ** The specification's words

    What the specification says of the diameter parser, written down as it
    reads, to be compared with the program. *)
Module Spec.
Import Text.

(** [s] begins with one or more digits [digits], then optional white
    space, then the letters mm. *)
Definition dia_occurrence (digits s : string) : Prop :=
  exists ws post,
    s = digits ++ ws ++ "mm" ++ post
    /\ digits <> ""
    /\ all_chars is_digit digits = true
    /\ all_chars is_space ws = true.



Section Sheets.
Context `{Pandas.Numeric}.
Import Pandas App.

(** A row in which, every cell read as lower-case text, some cell contains
    desc or item and some cell contains unit. *)
Definition header_like (cells : list cell) : Prop :=
  (exists c, In c cells
             /\ (substring_of "desc" (lower (cell_str c))
                 \/ substring_of "item" (lower (cell_str c))))
  /\ (exists c, In c cells /\ substring_of "unit" (lower (cell_str c))).

(** A label that, in lower case, contains one of the keywords. *)
Definition label_matches (keywords : list string) (label : string) : Prop :=
  exists k, In k keywords /\ substring_of k (lower label).

(** Every extracted row shows as its unit [shape] of the unit cell of the
    sheet row it was built from. *)
Definition units_shown_as (shape : cell -> string) : Prop :=
  forall file tdr name df_raw i df desc_col unit_col,
    read_raw file = inr df_raw ->
    header_row_index df_raw = Some i ->
    read_header file i = inr df ->
    find_column (columns df) ["desc"; "item"] = Some desc_col ->
    find_column (columns df) ["unit"] = Some unit_col ->
    Forall2 (fun r row =>
               exists item, r = Extracted item
                            /\ Units item = shape (row unit_col))
            (process_boq_file file tdr name)
            (filter (is_pipe_row desc_col) (rows df)).

(** The unit as the sheet has it, only trimmed. *)
Definition units_trimmed_only : Prop :=
  units_shown_as (fun c => strip (cell_str c)).

(** No row left after the filter: the message, and no table. *)
Definition empty_result_reported : Prop :=
  forall walk,
    filter dia_at_least_80 (combined_rows walk) = [] ->
    main walk = NoMatchingRows.

End Sheets.

End Spec.

(** * Properties *)

(** ** Text *)
Module TextFacts.
Import Text.

Lemma startswith_spec (s k : string) :
  startswith s k = true <-> exists post, s = k ++ post.
Proof.
  revert s; induction k as [|a k IH]; intros s; simpl.
  - split; [intros _; now exists s | reflexivity].
  - destruct s as [|c s].
    + split; [discriminate | intros [post E]; discriminate].
    + destruct (Ascii.eqb_spec a c) as [->|N]; simpl.
      * rewrite IH. split; intros [post E]; exists post.
        -- now rewrite E.
        -- now injection E.
      * split; [discriminate | intros [post E]; injection E; congruence].
Qed.

Lemma contains_spec (k s : string) :
  contains k s = true <-> substring_of k s.
Proof.
  unfold substring_of. induction s as [|c s IH].
  - simpl. rewrite orb_false_r, startswith_spec. split.
    + intros [post E]. now exists "", post.
    + intros [[|x pre] [post E]]; [now exists post | discriminate].
  - cbn [contains]. rewrite orb_true_iff, IH, startswith_spec. split.
    + intros [[post E] | [pre [post E]]].
      * now exists "", post.
      * exists (String c pre), post. now rewrite E.
    + intros [[|x pre] [post E]].
      * left. now exists post.
      * right. exists pre, post. now injection E.
Qed.

Lemma contains_false (k s : string) :
  contains k s = false <-> ~ substring_of k s.
Proof.
  rewrite <- contains_spec. destruct (contains k s); split; intros; congruence.
Qed.

(** Lower-casing turns no character into white space or out of it, and
    likewise for digits. *)
Lemma is_space_lower_char (c : ascii) : is_space (lower_char c) = is_space c.
Proof. destruct c as [[] [] [] [] [] [] [] []]; reflexivity. Qed.

Lemma lower_char_idem (c : ascii) : lower_char (lower_char c) = lower_char c.
Proof. destruct c as [[] [] [] [] [] [] [] []]; reflexivity. Qed.

Lemma lower_idem (s : string) : lower (lower s) = lower s.
Proof.
  induction s as [|c s IH]; simpl; [reflexivity|].
  now rewrite lower_char_idem, IH.
Qed.

Lemma lstrip_lower (s : string) : lstrip (lower s) = lower (lstrip s).
Proof.
  induction s as [|c s IH]; simpl; [reflexivity|].
  rewrite is_space_lower_char. destruct (is_space c); [exact IH | reflexivity].
Qed.

Lemma rstrip_lower (s : string) : rstrip (lower s) = lower (rstrip s).
Proof.
  induction s as [|c s IH]; simpl; [reflexivity|].
  rewrite IH, is_space_lower_char.
  destruct (rstrip s); simpl; [destruct (is_space c)|]; reflexivity.
Qed.

Lemma strip_lower (s : string) : strip (lower s) = lower (strip s).
Proof. unfold strip. now rewrite lstrip_lower, rstrip_lower. Qed.

Lemma rstrip_idem (s : string) : rstrip (rstrip s) = rstrip s.
Proof.
  induction s as [|c s IH]; simpl; [reflexivity|].
  destruct (rstrip s) as [|d t] eqn:E.
  - destruct (is_space c) eqn:Ec; simpl; [reflexivity | now rewrite Ec].
  - change (rstrip (String c (String d t))) with
      (match rstrip (String d t) with
       | EmptyString => if is_space c then EmptyString else String c EmptyString
       | u => String c u
       end).
    now rewrite IH.
Qed.

Lemma lstrip_head (s : string) :
  match lstrip s with
  | EmptyString => True
  | String c _ => is_space c = false
  end.
Proof.
  induction s as [|c s IH]; simpl; [exact I|].
  destruct (is_space c) eqn:E; [exact IH | exact E].
Qed.

Lemma lstrip_fixed (s : string) :
  match s with
  | EmptyString => True
  | String c _ => is_space c = false
  end -> lstrip s = s.
Proof. destruct s as [|c s]; simpl; [reflexivity | now intros ->]. Qed.

Lemma rstrip_head (s : string) :
  match s with
  | EmptyString => True
  | String c _ => is_space c = false
  end ->
  match rstrip s with
  | EmptyString => True
  | String c _ => is_space c = false
  end.
Proof.
  destruct s as [|c s]; simpl; [trivial|]. intros E.
  destruct (rstrip s); [rewrite E|]; exact E.
Qed.

Lemma strip_idem (s : string) : strip (strip s) = strip s.
Proof.
  unfold strip.
  rewrite (lstrip_fixed (rstrip (lstrip s))).
  - apply rstrip_idem.
  - apply rstrip_head, lstrip_head.
Qed.

Lemma solid_head (k : string) :
  solid k = true ->
  exists a k', k = String a k' /\ is_space a = false
               /\ all_chars (fun c => negb (is_space c)) k' = true.
Proof.
  destruct k as [|a k']; simpl; [discriminate|].
  intros [Ha Hk]%andb_true_iff. exists a, k'.
  now apply negb_true_iff in Ha.
Qed.

Lemma startswith_rstrip (k s : string) :
  all_chars (fun c => negb (is_space c)) k = true ->
  startswith (rstrip s) k = startswith s k.
Proof.
  revert k; induction s as [|c s IH]; intros k Hk; [reflexivity|].
  destruct k as [|a k]; [reflexivity|].
  simpl in Hk. apply andb_true_iff in Hk as [Ha Hk].
  apply negb_true_iff in Ha. specialize (IH k Hk).
  cbn [rstrip]. destruct (rstrip s) as [|d t].
  - destruct (is_space c) eqn:Ec; cbn [startswith].
    + destruct (Ascii.eqb_spec a c) as [->|]; [congruence | reflexivity].
    + now rewrite <- IH.
  - cbn [startswith]. now rewrite <- IH.
Qed.

Lemma contains_rstrip (k s : string) :
  solid k = true -> contains k (rstrip s) = contains k s.
Proof.
  intros Hk. pose proof Hk as (a & k' & -> & Ha & Hk')%solid_head.
  assert (Hall : all_chars (fun c => negb (is_space c)) (String a k') = true)
    by exact Hk.
  induction s as [|c s IH]; [reflexivity|].
  cbn [contains]. rewrite <- IH, <- (startswith_rstrip _ (String c s) Hall).
  cbn [rstrip]. destruct (rstrip s) as [|d t].
  - destruct (is_space c); cbn [contains]; [|reflexivity].
    now rewrite orb_false_r, orb_diag.
  - reflexivity.
Qed.

Lemma contains_lstrip (k s : string) :
  solid k = true -> contains k (lstrip s) = contains k s.
Proof.
  intros (a & k' & -> & Ha & Hk')%solid_head.
  induction s as [|c s IH]; [reflexivity|].
  cbn [lstrip]. destruct (is_space c) eqn:Ec; [|reflexivity].
  rewrite IH. cbn [contains startswith].
  destruct (Ascii.eqb_spec a c) as [->|]; [congruence | reflexivity].
Qed.

Lemma contains_strip (k s : string) :
  solid k = true -> contains k (strip s) = contains k s.
Proof.
  intros Hk. unfold strip. now rewrite contains_rstrip, contains_lstrip.
Qed.

Lemma contains_lower_strip (k s : string) :
  solid k = true -> contains k (lower (strip s)) = contains k (lower s).
Proof. intros Hk. now rewrite <- strip_lower, contains_strip. Qed.

End TextFacts.

(** ** The matcher *)
Module ReFacts.
Import Text TextFacts Re.

Section Pieces.
Context {A : Type}.

Lemma star_sound p s (k : string -> string -> option A) r :
  star p s k = Some r ->
  exists m rest, s = m ++ rest /\ all_chars p m = true /\ k m rest = Some r.
Proof.
  revert k; induction s as [|c s IH]; intros k; simpl.
  - intros E. now exists "", "".
  - destruct (p c) eqn:Ec.
    + destruct (star p s _) as [r'|] eqn:Es.
      * intros [= ->]. apply IH in Es as (m & rest & -> & Hm & Hk).
        exists (String c m), rest. simpl. now rewrite Ec, Hm.
      * intros E. now exists "", (String c s).
    + intros E. now exists "", (String c s).
Qed.

Lemma star_complete p m rest (k : string -> string -> option A) r :
  all_chars p m = true -> stops p rest -> k m rest = Some r ->
  star p (m ++ rest) k = Some r.
Proof.
  revert k; induction m as [|c m IH]; intros k; simpl.
  - intros _ Hs Hk. destruct rest as [|c rest]; simpl; [exact Hk|].
    simpl in Hs. now rewrite Hs.
  - intros [Ec Hm]%andb_true_iff Hs Hk. rewrite Ec.
    now rewrite (IH (fun m rest => k (String c m) rest) Hm Hs Hk).
Qed.

Lemma plus_sound p s (k : string -> string -> option A) r :
  plus p s k = Some r ->
  exists m rest,
    s = m ++ rest /\ m <> "" /\ all_chars p m = true /\ k m rest = Some r.
Proof.
  destruct s as [|c s]; simpl; [discriminate|].
  destruct (p c) eqn:Ec; [|discriminate].
  intros (m & rest & -> & Hm & Hk)%star_sound.
  exists (String c m), rest. simpl. rewrite Ec, Hm. now repeat split.
Qed.

Lemma plus_complete p m rest (k : string -> string -> option A) r :
  m <> "" -> all_chars p m = true -> stops p rest -> k m rest = Some r ->
  plus p (m ++ rest) k = Some r.
Proof.
  destruct m as [|c m]; [congruence|]. simpl.
  intros _ [Ec Hm]%andb_true_iff Hs Hk. rewrite Ec.
  now apply (star_complete p m rest (fun m rest => k (String c m) rest)).
Qed.

Lemma lit_sound w s (k : string -> option A) r :
  lit w s k = Some r -> exists rest, s = w ++ rest /\ k rest = Some r.
Proof.
  revert s; induction w as [|a w IH]; intros s; simpl.
  - intros E. now exists s.
  - destruct s as [|c s]; [discriminate|].
    destruct (Ascii.eqb_spec a c) as [->|]; [|discriminate].
    intros (rest & -> & Hk)%IH. now exists rest.
Qed.

Lemma lit_complete w rest (k : string -> option A) :
  lit w (w ++ rest) k = k rest.
Proof.
  induction w as [|a w IH]; simpl; [reflexivity|].
  now rewrite Ascii.eqb_refl.
Qed.



End Pieces.

(** The pattern of [extract_dia] at the start of a text, in the words of
    the specification. *)
Lemma dia_pattern_spec (s digits : string) :
  dia_pattern s = Some digits <-> Spec.dia_occurrence digits s.
Proof.
  unfold dia_pattern, Spec.dia_occurrence. split.
  - intros (m & s1 & -> & Hne & Hd & Hk)%plus_sound.
    apply star_sound in Hk as (ws & s2 & -> & Hw & Hk).
    apply lit_sound in Hk as (post & -> & [= ->]).
    now exists ws, post.
  - intros (ws & post & -> & Hne & Hd & Hw).
    apply plus_complete; [assumption..| |].
    + destruct ws as [|c ws]; simpl; [reflexivity|].
      simpl in Hw. apply andb_true_iff in Hw as [Hc _].
      destruct c as [[] [] [] [] [] [] [] []]; (reflexivity || discriminate).
    + apply star_complete; [assumption| reflexivity |].
      now rewrite (lit_complete "mm").
Qed.

Lemma dia_pattern_none (s : string) :
  dia_pattern s = None <-> forall digits, ~ Spec.dia_occurrence digits s.
Proof.
  split.
  - intros E digits Ho%dia_pattern_spec. congruence.
  - intros Hn. destruct (dia_pattern s) as [g|] eqn:E; [|reflexivity].
    now apply dia_pattern_spec, Hn in E.
Qed.



(** A literal followed by nothing: the test [startswith]. *)
Lemma lit_startswith (w s : string) :
  lit w s (fun _ => Some tt) = if startswith s w then Some tt else None.
Proof.
  revert s; induction w as [|a w IH]; intros s; simpl; [reflexivity|].
  destruct s as [|c s]; [reflexivity|].
  destruct (Ascii.eqb a c); [apply IH | reflexivity].
Qed.

Lemma str_contains_step (pat : string -> option unit) (s : string) :
  str_contains pat s
  = hit pat s
    || match s with
       | EmptyString => false
       | String _ s' => str_contains pat s'
       end.
Proof.
  unfold str_contains, hit.
  destruct s as [|c s]; cbn [search]; destruct (pat _); reflexivity.
Qed.

(** [str.contains("k-7")] is the substring test. *)
Lemma str_contains_k7 (s : string) :
  str_contains k7_pattern s = contains "k-7" s.
Proof.
  induction s as [|c s IH]; rewrite str_contains_step; [|rewrite IH];
    cbn [contains]; unfold hit, k7_pattern; rewrite lit_startswith;
    now destruct (startswith _ "k-7").
Qed.

(** [str.contains("k-9|k9")] is one substring test or the other. *)
Lemma str_contains_k9 (s : string) :
  str_contains k9_pattern s = contains "k-9" s || contains "k9" s.
Proof.
  induction s as [|c s IH]; rewrite str_contains_step; [|rewrite IH];
    cbn [contains]; unfold hit, k9_pattern, alt; rewrite !lit_startswith.
  - now destruct (startswith "" "k-9"), (startswith "" "k9").
  - destruct (startswith (String c s) "k-9"),
             (startswith (String c s) "k9"),
             (contains "k-9" s), (contains "k9" s); reflexivity.
Qed.

End ReFacts.

(** ** The diameter parser *)
Module DiameterParser.
Import Text TextFacts Re ReFacts App.

(** [int] reads a decimal numeral: one more digit at the end is ten times
    the number read so far plus that digit. *)
Lemma int_from_snoc (acc : Z) (s : string) (c : ascii) :
  int_from acc (s ++ String c "") = (10 * int_from acc s + digit_value c)%Z.
Proof. revert acc; induction s as [|x s IH]; intros acc; simpl; auto. Qed.

Lemma int_snoc (s : string) (c : ascii) :
  int (s ++ String c "") = (10 * int s + digit_value c)%Z.
Proof. apply int_from_snoc. Qed.





End DiameterParser.

(** ** The pieces of the file extractor *)
Module ExtractorFacts.
Import Text TextFacts Pandas App.

Lemma keyword_test_spec (keywords : list string) (label : string) :
  existsb (fun k => contains k (lower label)) keywords = true
  <-> Spec.label_matches keywords label.
Proof.
  rewrite existsb_exists. unfold Spec.label_matches.
  split; intros (k & Hin & Hk); exists k; split; auto;
    now apply contains_spec.
Qed.

Lemma find_column_some (columns keywords : list string) (col : string) :
  find_column columns keywords = Some col <->
  exists before after,
    columns = (before ++ col :: after)%list
    /\ Spec.label_matches keywords col
    /\ forall c, In c before -> ~ Spec.label_matches keywords c.
Proof.
  induction columns as [|c columns IH]; simpl.
  - split; [discriminate | intros ([|x before] & after & E & _); discriminate].
  - destruct (existsb _ keywords) eqn:Ek.
    + split.
      * intros [= ->]. exists [], columns. repeat split.
        -- now apply keyword_test_spec.
        -- intros c' [].
      * intros ([|x before] & after & E & Hm & Hb).
        -- now injection E as ->.
        -- injection E as -> E. exfalso. apply (Hb x); [now left|].
           now apply keyword_test_spec.
    + rewrite IH. split.
      * intros (before & after & -> & Hm & Hb).
        exists (c :: before), after. repeat split; [assumption|].
        intros c' [<-|Hin]; [|now apply Hb].
        rewrite <- keyword_test_spec. congruence.
      * intros ([|x before] & after & E & Hm & Hb).
        -- injection E as -> E. apply keyword_test_spec in Hm. congruence.
        -- injection E as -> E. exists before, after.
           repeat split; [assumption..|]. intros c' Hin. apply Hb. now right.
Qed.


(** A label found through non-empty keywords is not empty: Python reads it
    as true. *)
Lemma find_column_truthy (columns keywords : list string) (col : string) :
  (forall k, In k keywords -> k <> "") ->
  find_column columns keywords = Some col -> (col =? "") = false.
Proof.
  intros Hk (_ & _ & _ & (k & Hin & pre & post & E) & _)%find_column_some.
  apply String.eqb_neq. intros ->. simpl in E.
  destruct pre; [|discriminate]. destruct k; [|discriminate].
  now apply (Hk "").
Qed.

Ltac nonempty_keywords :=
  let k := fresh "k" in let Hin := fresh "Hin" in
  intros k Hin; simpl in Hin;
  repeat (destruct Hin as [<-|Hin]; [discriminate|]); destruct Hin.

Section Generic.
Context `{Numeric}.

Lemma is_header_row_spec (cells : list cell) :
  is_header_row cells = true <-> Spec.header_like cells.
Proof.
  unfold is_header_row, Spec.header_like.
  rewrite andb_true_iff, !existsb_exists.
  split; intros [(x & Hx & H1) (y & Hy & H2)].
  - apply in_map_iff in Hx as (c & <- & Hc), Hy as (c' & <- & Hc').
    split; [exists c | exists c']; split; auto.
    + apply orb_true_iff in H1. rewrite !contains_spec in H1. exact H1.
    + now apply contains_spec.
  - split.
    + exists (lower (cell_str x)).
      split; [now apply (in_map (fun c => lower (cell_str c)))|].
      rewrite orb_true_iff, !contains_spec. exact H1.
    + exists (lower (cell_str y)).
      split; [now apply (in_map (fun c => lower (cell_str c)))|].
      now apply contains_spec.
Qed.

(** The loop returns the first row of its range that passes the test. *)
Lemma first_header_row_some (sheet : RawSheet) (i j : nat) :
  first_header_row i sheet = Some j <->
  exists n cells,
    j = i + n /\ nth_error sheet n = Some cells /\ is_header_row cells = true
    /\ forall m cells', m < n -> nth_error sheet m = Some cells' ->
                        is_header_row cells' = false.
Proof.
  revert i; induction sheet as [|r sheet IH]; intros i; simpl.
  - split; [discriminate | intros ([|n] & cells & _ & E & _); discriminate].
  - destruct (is_header_row r) eqn:Er.
    + split.
      * intros [= <-]. exists 0, r. repeat split; auto with arith. lia.
      * intros ([|n] & cells & -> & E & Hc & Hmin); [f_equal; lia|].
        specialize (Hmin 0 r (Nat.lt_0_succ n) eq_refl). congruence.
    + rewrite IH. split.
      * intros (n & cells & -> & E & Hc & Hmin). exists (S n), cells.
        repeat split; [lia | assumption..|].
        intros [|m] cells' Hm E'; [simpl in E'; congruence|].
        apply (Hmin m); [lia | exact E'].
      * intros ([|n] & cells & -> & E & Hc & Hmin).
        -- simpl in E. congruence.
        -- exists n, cells. repeat split; [lia | assumption..|].
           intros m cells' Hm E'. apply (Hmin (S m)); [lia | exact E'].
Qed.

Lemma first_header_row_none (sheet : RawSheet) (i : nat) :
  first_header_row i sheet = None <->
  forall n cells, nth_error sheet n = Some cells -> is_header_row cells = false.
Proof.
  revert i; induction sheet as [|r sheet IH]; intros i; simpl.
  - split; [intros _ [|n] cells E; discriminate | reflexivity].
  - destruct (is_header_row r) eqn:Er.
    + split; [discriminate|]. intros Hn.
      specialize (Hn 0 r eq_refl). congruence.
    + rewrite IH. split.
      * intros Hn [|n] cells E; [simpl in E; congruence | now apply (Hn n)].
      * intros Hn n cells E. now apply (Hn (S n)).
Qed.

Lemma nth_error_window (sheet : RawSheet) (k n : nat) (cells : list cell) :
  nth_error (firstn k sheet) n = Some cells <->
  n < k /\ nth_error sheet n = Some cells.
Proof.
  rewrite nth_error_firstn. destruct (Nat.ltb_spec n k).
  - split; [now split | now intros [_ E]].
  - split; [discriminate | intros [Hl _]; lia].
Qed.

End Generic.
End ExtractorFacts.

(** ** The header locator *)
Module HeaderLocator.
Import Text TextFacts Pandas App ExtractorFacts Fixtures.

Section Generic.
Context `{Numeric}.

Lemma is_header_row_false (cells : list cell) :
  is_header_row cells = false <-> ~ Spec.header_like cells.
Proof.
  rewrite <- is_header_row_spec.
  destruct (is_header_row cells); split; congruence.
Qed.

Lemma header_row_index_some (df_raw : RawSheet) (i : nat) :
  header_row_index df_raw = Some i <->
  i < Nat.min 30 (List.length df_raw)
  /\ (exists cells, nth_error df_raw i = Some cells /\ Spec.header_like cells)
  /\ (forall j cells, j < i -> nth_error df_raw j = Some cells ->
                      ~ Spec.header_like cells).
Proof.
  unfold header_row_index. rewrite first_header_row_some. split.
  - intros (n & cells & -> & [Hn E]%nth_error_window & Hc & Hmin).
    simpl. split; [exact Hn|]. split.
    + exists cells. split; [exact E | now apply is_header_row_spec].
    + intros j cells' Hj E'. apply is_header_row_false, (Hmin j); [exact Hj|].
      apply nth_error_window. split; [lia | exact E'].
  - intros (Hi & (cells & E & Hc) & Hmin). exists i, cells.
    split; [reflexivity|]. split; [now apply nth_error_window|].
    split; [now apply is_header_row_spec|].
    intros m cells' Hm [_ E']%nth_error_window.
    now apply is_header_row_false, (Hmin m).
Qed.

Lemma header_row_index_none (df_raw : RawSheet) :
  header_row_index df_raw = None <->
  forall i cells,
    i < Nat.min 30 (List.length df_raw) -> nth_error df_raw i = Some cells ->
    ~ Spec.header_like cells.
Proof.
  unfold header_row_index. rewrite first_header_row_none. split.
  - intros Hn i cells Hi E. apply is_header_row_false, (Hn i).
    now apply nth_error_window.
  - intros Hn n cells [Hl E]%nth_error_window.
    now apply is_header_row_false, (Hn n).
Qed.

(** C5: the header locator returns the index of the first row, among the
    first min(30, number of rows) rows, in which some cell contains desc or
    item and some cell contains unit, every cell read as lower-case text;
    when the window has no such row the file yields the one record
    "Header not found". *)
Theorem header_locator_first_match (df_raw : RawSheet) :
  (forall i,
     header_row_index df_raw = Some i <->
     i < Nat.min 30 (List.length df_raw)
     /\ (exists cells,
           nth_error df_raw i = Some cells /\ Spec.header_like cells)
     /\ (forall j cells, j < i -> nth_error df_raw j = Some cells ->
                         ~ Spec.header_like cells))
  /\ (header_row_index df_raw = None <->
      forall i cells,
        i < Nat.min 30 (List.length df_raw) ->
        nth_error df_raw i = Some cells ->
        ~ Spec.header_like cells)
  /\ (forall file tdr_name file_name,
        read_raw file = inr df_raw ->
        header_row_index df_raw = None ->
        process_boq_file file tdr_name file_name
        = [Diagnostic tdr_name file_name "⚠️ Header not found"]).
Proof.
  split; [|split].
  - apply header_row_index_some.
  - apply header_row_index_none.
  - intros file tdr_name file_name Er Eh.
    unfold process_boq_file. now rewrite Er, Eh.
Qed.

End Generic.

Lemma header_locator_first_match_witness :
  header_row_index (banners 29) = Some 29
  /\ process_boq_file (book_of (banners 30)) "TDR-A" "boq.xlsx"
     = [Diagnostic "TDR-A" "boq.xlsx" "⚠️ Header not found"].
Proof.
  split.
  - reflexivity.
  - apply (proj2 (proj2 (header_locator_first_match (banners 30))));
      reflexivity.
Defined.

End HeaderLocator.

(** ** One file, from sheet to records *)
Module FileFacts.
Import Text TextFacts Pandas App ExtractorFacts.

(** One case for each key of the synonym table that [t] is compared with;
    the case of a key is closed by evaluation, the case of no key is left. *)
Ltac by_synonym t :=
  repeat match goal with
         | |- context [String.eqb t ?key] =>
             destruct (String.eqb_spec t key) as [->|_]; [reflexivity|]
         end.

Section Generic.
Context `{Numeric}.

(** Rewriting the unit column does not change which rows are pipe rows,
    even when the description and the unit are one and the same column: no
    keyword holds white space, and no spelling of the metre holds a
    keyword. *)
Lemma pipe_test_normalized (s : string) :
  existsb (fun x => contains x (lower (replace unit_synonyms (lower (strip s)))))
          pipe_keywords
  = existsb (fun x => contains x (lower s)) pipe_keywords.
Proof.
  unfold pipe_keywords. cbn [existsb].
  rewrite <- !(contains_lower_strip _ s) by reflexivity.
  assert (Ht : lower (lower (strip s)) = lower (strip s)) by apply lower_idem.
  revert Ht. generalize (lower (strip s)) as t. intros t Ht.
  unfold unit_synonyms. cbn [replace].
  by_synonym t.
  now rewrite Ht.
Qed.

Lemma is_pipe_row_normalized (desc_col unit_col : string) (row : Row) :
  is_pipe_row desc_col (with_normalized_unit unit_col row)
  = is_pipe_row desc_col row.
Proof.
  unfold is_pipe_row, with_normalized_unit, set_cell.
  destruct (String.eqb_spec desc_col unit_col) as [->|_]; [|reflexivity].
  apply pipe_test_normalized.
Qed.

(** The units shown for a row: the normalised cell, which trimming leaves
    as it is. *)
Lemma strip_replace_synonyms (s : string) :
  strip (replace unit_synonyms (lower (strip s)))
  = replace unit_synonyms (lower (strip s)).
Proof.
  assert (Ht : strip (lower (strip s)) = lower (strip s))
    by now rewrite strip_lower, strip_idem.
  revert Ht. generalize (lower (strip s)) as t. intros t Ht.
  unfold unit_synonyms. cbn [replace].
  by_synonym t.
  exact Ht.
Qed.

Lemma units_of_build_item tdr_name file_name desc_col unit_col qty_col
    rate_col (row : Row) :
  Units (build_item tdr_name file_name desc_col unit_col qty_col rate_col
           (with_normalized_unit unit_col row))
  = normalize_unit (row unit_col).
Proof.
  simpl. unfold with_normalized_unit, set_cell. rewrite String.eqb_refl.
  apply strip_replace_synonyms.
Qed.

(** The records of a file that reads well and has both required columns:
    one per pipe row of the sheet, in sheet order. *)
Lemma process_boq_file_success file tdr_name file_name df_raw i df
    desc_col unit_col :
  read_raw file = inr df_raw ->
  header_row_index df_raw = Some i ->
  read_header file i = inr df ->
  find_column (columns df) ["desc"; "item"] = Some desc_col ->
  find_column (columns df) ["unit"] = Some unit_col ->
  process_boq_file file tdr_name file_name
  = map (fun row =>
           Extracted
             (build_item tdr_name file_name desc_col unit_col
                (find_column (columns df) ["qty"; "quantity"])
                (find_column (columns df) ["rate"; "amount"; "estimate"])
                (with_normalized_unit unit_col row)))
        (filter (is_pipe_row desc_col) (rows df)).
Proof.
  intros Er Eh Es Ed Eu. unfold process_boq_file.
  rewrite Er, Eh, Es, Ed, Eu.
  assert ((desc_col =? "") = false) as Td
    by (eapply find_column_truthy; [|exact Ed]; nonempty_keywords).
  assert ((unit_col =? "") = false) as Tu
    by (eapply find_column_truthy; [|exact Eu]; nonempty_keywords).
  rewrite Td, Tu.
  cbn [orb assign rows].
  change (map (fun r => set_cell unit_col (Text (normalize_unit (r unit_col))) r)
              (rows df))
    with (map (with_normalized_unit unit_col) (rows df)).
  rewrite filter_map_swap.
  rewrite (filter_ext _ (is_pipe_row desc_col)
             (fun row => is_pipe_row_normalized desc_col unit_col row)).
  rewrite map_map.
  now destruct (filter (is_pipe_row desc_col) (rows df)).
Qed.

(** Without a description or a unit column the file gives one record. *)
Lemma process_boq_file_missing file tdr_name file_name df_raw i df :
  read_raw file = inr df_raw ->
  header_row_index df_raw = Some i ->
  read_header file i = inr df ->
  find_column (columns df) ["desc"; "item"] = None
  \/ find_column (columns df) ["unit"] = None ->
  process_boq_file file tdr_name file_name
  = [Diagnostic tdr_name file_name "⚠️ Missing required columns"].
Proof.
  intros Er Eh Es Em. unfold process_boq_file. rewrite Er, Eh, Es.
  destruct Em as [-> | ->]; [reflexivity|].
  now destruct (find_column (columns df) ["desc"; "item"]).
Qed.

(** Whatever the workbook, the result has one of two shapes. *)
Lemma process_boq_file_shape file tdr_name file_name :
  (exists message,
     process_boq_file file tdr_name file_name
     = [Diagnostic tdr_name file_name message])
  \/ (exists items,
        process_boq_file file tdr_name file_name = map Extracted items).
Proof.
  destruct (read_raw file) as [e|df_raw] eqn:Er.
  { left. eexists. unfold process_boq_file. now rewrite Er. }
  destruct (header_row_index df_raw) as [i|] eqn:Eh.
  2:{ left. eexists. unfold process_boq_file. now rewrite Er, Eh. }
  destruct (read_header file i) as [e|df] eqn:Es.
  { left. eexists. unfold process_boq_file. now rewrite Er, Eh, Es. }
  destruct (find_column (columns df) ["desc"; "item"]) as [d|] eqn:Ed.
  2:{ left. eexists. apply (process_boq_file_missing _ _ _ _ _ _ Er Eh Es).
      now left. }
  destruct (find_column (columns df) ["unit"]) as [u|] eqn:Eu.
  2:{ left. eexists. apply (process_boq_file_missing _ _ _ _ _ _ Er Eh Es).
      now right. }
  right. rewrite (process_boq_file_success _ _ _ _ _ _ _ _ Er Eh Es Ed Eu).
  rewrite <- map_map. now eexists.
Qed.

(** Where an extracted row comes from: a pipe row of a sheet that read
    well. *)
Lemma extracted_inv file tdr_name file_name item :
  In (Extracted item) (process_boq_file file tdr_name file_name) ->
  exists df_raw i df desc_col unit_col row,
    read_raw file = inr df_raw
    /\ header_row_index df_raw = Some i
    /\ read_header file i = inr df
    /\ find_column (columns df) ["desc"; "item"] = Some desc_col
    /\ find_column (columns df) ["unit"] = Some unit_col
    /\ In row (rows df)
    /\ is_pipe_row desc_col row = true
    /\ item = build_item tdr_name file_name desc_col unit_col
                (find_column (columns df) ["qty"; "quantity"])
                (find_column (columns df) ["rate"; "amount"; "estimate"])
                (with_normalized_unit unit_col row).
Proof.
  intros Hin.
  destruct (read_raw file) as [e|df_raw] eqn:Er.
  { unfold process_boq_file in Hin. rewrite Er in Hin.
    destruct Hin as [[=]|[]]. }
  destruct (header_row_index df_raw) as [i|] eqn:Eh.
  2:{ unfold process_boq_file in Hin. rewrite Er, Eh in Hin.
      destruct Hin as [[=]|[]]. }
  destruct (read_header file i) as [e|df] eqn:Es.
  { unfold process_boq_file in Hin. rewrite Er, Eh, Es in Hin.
    destruct Hin as [[=]|[]]. }
  destruct (find_column (columns df) ["desc"; "item"]) as [d|] eqn:Ed.
  2:{ rewrite (process_boq_file_missing _ _ _ _ _ _ Er Eh Es) in Hin
        by now left.
      destruct Hin as [[=]|[]]. }
  destruct (find_column (columns df) ["unit"]) as [u|] eqn:Eu.
  2:{ rewrite (process_boq_file_missing _ _ _ _ _ _ Er Eh Es) in Hin
        by now right.
      destruct Hin as [[=]|[]]. }
  rewrite (process_boq_file_success _ _ _ _ _ _ _ _ Er Eh Es Ed Eu) in Hin.
  apply in_map_iff in Hin as (row & [= <-] & [Hrow Hp]%filter_In).
  exists df_raw, i, df, d, u, row. now repeat split.
Qed.

End Generic.
End FileFacts.

(** ** The unit normaliser *)
Module UnitNormalizer.
Import Text TextFacts Pandas App Fixtures.

Section Generic.
Context `{Numeric}.

(** C10: the collapse to "meter" replaces whole values.  A unit cell,
    trimmed and lower-cased, becomes "meter" when it is one of per metre,
    rm, rmt, mtr, mtrs, and stays as trimmed and lower-cased otherwise, so a
    cell that only contains one of them (rmt/km, 100 rmt) is not touched. *)
Theorem unit_synonym_whole_value (c : cell) :
  (In (lower (strip (cell_str c))) ["per metre"; "rm"; "rmt"; "mtr"; "mtrs"]
   -> normalize_unit c = "meter")
  /\ (~ In (lower (strip (cell_str c)))
          ["per metre"; "rm"; "rmt"; "mtr"; "mtrs"]
      -> normalize_unit c = lower (strip (cell_str c)))
  /\ normalize_unit (Text "rmt/km") = "rmt/km"
  /\ normalize_unit (Text "100 rmt") = "100 rmt".
Proof.
  unfold normalize_unit. split; [|split; [|split; reflexivity]].
  - generalize (lower (strip (cell_str c))) as t. intros t Hin.
    simpl in Hin.
    repeat (destruct Hin as [<-|Hin]; [reflexivity|]). destruct Hin.
  - generalize (lower (strip (cell_str c))) as t. intros t Hn.
    unfold unit_synonyms. cbn [replace].
    repeat match goal with
           | |- context [String.eqb t ?key] =>
               destruct (String.eqb_spec t key) as [->|_];
               [exfalso; apply Hn; simpl; tauto|]
           end.
    reflexivity.
Qed.

End Generic.

Lemma unit_synonym_whole_value_witness :
  normalize_unit (Text " RMT ") = "meter"
  /\ normalize_unit (Text "Each") = "each".
Proof.
  split.
  - apply (proj1 (unit_synonym_whole_value (Text " RMT "))).
    simpl. tauto.
  - apply (proj1 (proj2 (unit_synonym_whole_value (Text "Each")))).
    simpl. intros [E|[E|[E|[E|[E|[]]]]]]; discriminate E.
Defined.

End UnitNormalizer.

(** ** The row classifier *)
Module RowClassifier.
Import Text TextFacts Pandas App ExtractorFacts FileFacts Fixtures.

Section Generic.
Context `{Numeric}.

Lemma is_pipe_row_spec (desc_col : string) (row : Row) :
  is_pipe_row desc_col row = true <->
  exists k, In k pipe_keywords
            /\ substring_of k (lower (cell_str (row desc_col))).
Proof.
  unfold is_pipe_row. rewrite existsb_exists.
  split; intros (k & Hin & Hk); exists k; split; auto;
    now apply contains_spec.
Qed.

(** C6: a row is a pipe row exactly when its description, in lower case,
    contains one of pipe, di, ci, m.s, k-7, k-9, hdpe, pvc, upvc; the
    records of a file are built from the pipe rows of its sheet, one each
    and in order, and from no other row. *)
Theorem pipe_rows_by_keyword :
  (forall desc_col row,
     is_pipe_row desc_col row = true <->
     exists k,
       In k ["pipe"; "di"; "ci"; "m.s"; "k-7"; "k-9"; "hdpe"; "pvc"; "upvc"]
       /\ substring_of k (lower (cell_str (row desc_col))))
  /\ (forall file tdr_name file_name df_raw i df desc_col unit_col,
        read_raw file = inr df_raw ->
        header_row_index df_raw = Some i ->
        read_header file i = inr df ->
        find_column (columns df) ["desc"; "item"] = Some desc_col ->
        find_column (columns df) ["unit"] = Some unit_col ->
        process_boq_file file tdr_name file_name
        = map (fun row =>
                 Extracted
                   (build_item tdr_name file_name desc_col unit_col
                      (find_column (columns df) ["qty"; "quantity"])
                      (find_column (columns df) ["rate"; "amount"; "estimate"])
                      (with_normalized_unit unit_col row)))
              (filter (is_pipe_row desc_col) (rows df)))
  /\ is_pipe_row "Description" (fun _ => Text "HDPE Pipe 110mm") = true
  /\ is_pipe_row "Description" (fun _ => Text "Cement Concrete Work") = false.
Proof.
  split; [|split; [|split; reflexivity]].
  - apply is_pipe_row_spec.
  - apply process_boq_file_success.
Qed.

End Generic.

Lemma pipe_rows_by_keyword_witness :
  process_boq_file (book_of sheet_a) "TDR-A" "boq.xlsx"
  = [Extracted item_a].
Proof.
  rewrite (proj1 (proj2 pipe_rows_by_keyword)
             (book_of sheet_a) "TDR-A" "boq.xlsx" sheet_a 1
             (frame_of sheet_a 1) "Item Description" "Unit");
    reflexivity.
Defined.

End RowClassifier.

(** ** The class flags *)
Module ClassFlags.
Import Text TextFacts Pandas App ReFacts FileFacts Fixtures.

Section Generic.
Context `{Numeric}.

(** C7: the K-9 column of an extracted row is "Yes" exactly when its
    description, in lower case, contains k-9 or k9, the K-7 column exactly
    when it contains k-7, and each is the empty text otherwise; the two do
    not depend on each other, and all four combinations occur. *)
Theorem class_flags_from_description :
  (forall file tdr_name file_name item,
     In (Extracted item) (process_boq_file file tdr_name file_name) ->
     ((K_9 item = "Yes"
       /\ (substring_of "k-9" (lower (Item_Description item))
           \/ substring_of "k9" (lower (Item_Description item))))
      \/ (K_9 item = ""
          /\ ~ (substring_of "k-9" (lower (Item_Description item))
                \/ substring_of "k9" (lower (Item_Description item)))))
     /\ ((K_7 item = "Yes"
          /\ substring_of "k-7" (lower (Item_Description item)))
         \/ (K_7 item = ""
             /\ ~ substring_of "k-7" (lower (Item_Description item)))))
  /\ (forall tdr file d u q r,
        let flags s :=
          let item := build_item tdr file d u q r (fun _ => Text s) in
          (K_9 item, K_7 item) in
        flags "K-7/K-9 DI Pipe" = ("Yes", "Yes")
        /\ flags "DI Pipe K9 100mm" = ("Yes", "")
        /\ flags "DI Pipe K-7 100mm" = ("", "Yes")
        /\ flags "RCC Pipe" = ("", "")).
Proof.
  split.
  - intros file tdr_name file_name item Hin.
    apply extracted_inv in Hin
      as (df_raw & i & df & d & u & row & _ & _ & _ & _ & _ & _ & _ & ->).
    cbn [K_9 K_7 Item_Description build_item].
    rewrite str_contains_k9, str_contains_k7.
    set (s := lower (cell_str (with_normalized_unit u row d))). split.
    + destruct (contains "k-9" s) eqn:E1; [|destruct (contains "k9" s) eqn:E2].
      * left. split; [reflexivity|]. left. now apply contains_spec.
      * left. split; [reflexivity|]. right. now apply contains_spec.
      * right. split; [reflexivity|].
        apply contains_false in E1, E2. tauto.
    + destruct (contains "k-7" s) eqn:E.
      * left. split; [reflexivity|]. now apply contains_spec.
      * right. split; [reflexivity|]. now apply contains_false.
  - intros. repeat split.
Qed.

End Generic.

Lemma class_flags_from_description_witness :
  K_9 item_a = "Yes" /\ K_7 item_a = "".
Proof.
  destruct (proj1 class_flags_from_description
              (book_of sheet_a) "TDR-A" "boq.xlsx" item_a
              (or_introl eq_refl))
    as [[[E9 _]|[E9 _]] [[E7 _]|[E7 _]]];
    solve [split; assumption | discriminate E9 | discriminate E7].
Defined.

End ClassFlags.

(** ** The column resolver *)
Module ColumnResolver.
Import Text TextFacts Pandas App ExtractorFacts FileFacts Fixtures.

Section Generic.
Context `{Numeric}.


End Generic.


End ColumnResolver.

(** ** The file extractor *)
Module FileExtractor.
Import Text TextFacts Pandas App ExtractorFacts FileFacts Fixtures.

Section Generic.
Context `{Numeric}.



End Generic.


End FileExtractor.

(** ** The units shown *)
Module UnitsColumn.
Import Text TextFacts Pandas App ExtractorFacts FileFacts Fixtures.

Section Generic.
Context `{Numeric}.

(** C1, as the program has it: the unit column is rewritten in place before
    the [Units] field is read from it, so the field of every extracted row
    is the unit cell of its sheet row trimmed, lower-cased and with the
    spellings of the metre replaced by "meter". *)
Theorem units_are_normalized book tdr_name file_name df_raw i df
    desc_col unit_col :
  read_raw book = inr df_raw ->
  header_row_index df_raw = Some i ->
  read_header book i = inr df ->
  find_column (columns df) ["desc"; "item"] = Some desc_col ->
  find_column (columns df) ["unit"] = Some unit_col ->
  Forall2 (fun r row =>
             exists item,
               r = Extracted item
               /\ Units item
                  = replace unit_synonyms
                      (lower (strip (cell_str (row unit_col)))))
          (process_boq_file book tdr_name file_name)
          (filter (is_pipe_row desc_col) (rows df)).
Proof.
  intros Er Eh Es Ed Eu.
  rewrite (process_boq_file_success _ _ _ _ _ _ _ _ Er Eh Es Ed Eu).
  induction (filter (is_pipe_row desc_col) (rows df)) as [|row l IH];
    simpl; constructor; [|exact IH].
  eexists. split; [reflexivity|]. apply units_of_build_item.
Qed.

End Generic.

Lemma units_are_normalized_witness :
  Forall2 (fun r row =>
             exists item,
               r = Extracted item
               /\ Units item
                  = replace unit_synonyms
                      (lower (strip (cell_str (row "Unit")))))
          (process_boq_file (book_of sheet_a) "TDR-A" "boq.xlsx")
          (filter (is_pipe_row "Item Description") (rows (frame_of sheet_a 1))).
Proof.
  apply (units_are_normalized (book_of sheet_a) "TDR-A" "boq.xlsx"
           sheet_a 1 (frame_of sheet_a 1) "Item Description" "Unit");
    reflexivity.
Defined.

(** The unit of the pipe row of [sheet_a] is written RMT, between blanks;
    the record shows meter, not RMT. *)
Lemma units_are_not_trimmed_only :
  process_boq_file (book_of sheet_a) "TDR-A" "boq.xlsx" = [Extracted item_a]
  /\ Units item_a = "meter"
  /\ strip (cell_str (Text " RMT ")) = "RMT"
  /\ ~ Spec.units_trimmed_only.
Proof.
  split; [reflexivity|]. split; [reflexivity|]. split; [reflexivity|].
  intros Hclaim.
  specialize (Hclaim (book_of sheet_a) "TDR-A" "boq.xlsx" sheet_a 1
                (frame_of sheet_a 1) "Item Description" "Unit"
                eq_refl eq_refl eq_refl eq_refl eq_refl).
  change (process_boq_file (book_of sheet_a) "TDR-A" "boq.xlsx")
    with [Extracted item_a] in Hclaim.
  inversion Hclaim as [|r row rs rows' (item & E & Hu) _].
  injection E as <-. vm_compute in Hu. discriminate Hu.
Qed.

End UnitsColumn.

(** ** The batch *)
Module Batch.
Import Text TextFacts Pandas App FileFacts Fixtures.

Section Generic.
Context `{Numeric}.

Lemma numbered_rows (l : list record) (n : nat) :
  map snd (combine (seq n (List.length l)) l) = l
  /\ map fst (combine (seq n (List.length l)) l) = seq n (List.length l).
Proof.
  revert n; induction l as [|r l IH]; intros n; simpl; [now split|].
  destruct (IH (S n)) as [-> ->]. now split.
Qed.

(** The three ways the page can end. *)
Lemma main_no_rows (walk : list Entry) :
  combined_rows walk = [] -> main walk = NoMatchingRows.
Proof. unfold main. now intros ->. Qed.

Lemma main_summary (walk : list Entry) :
  existsb has_dia_key (combined_rows walk) = true ->
  main walk
  = Summary (combine
               (seq 1 (List.length (filter dia_at_least_80 (combined_rows walk))))
               (filter dia_at_least_80 (combined_rows walk))).
Proof.
  unfold main. intros E. rewrite E.
  destruct (combined_rows walk); [discriminate E | reflexivity].
Qed.

Lemma main_key_error (walk : list Entry) :
  combined_rows walk <> [] ->
  existsb has_dia_key (combined_rows walk) = false ->
  main walk = KeyError "DIA".
Proof.
  unfold main. intros Hne E. rewrite E.
  now destruct (combined_rows walk).
Qed.

Lemma main_summary_inv (walk : list Entry) (table : list (nat * record)) :
  main walk = Summary table ->
  table = combine
            (seq 1 (List.length (filter dia_at_least_80 (combined_rows walk))))
            (filter dia_at_least_80 (combined_rows walk)).
Proof.
  destruct (existsb has_dia_key (combined_rows walk)) eqn:E.
  - rewrite (main_summary walk E). now intros [= <-].
  - destruct (combined_rows walk) as [|r l] eqn:Ec.
    + now rewrite (main_no_rows walk Ec).
    + rewrite (main_key_error walk); [discriminate | congruence |].
      now rewrite Ec.
Qed.

(** C2, as the program has it: the message is shown exactly when no file
    gave any record, that is when there is no row before the filter; when
    the files gave extracted rows and none of them has a diameter of 80 or
    more, an empty table is shown. *)
Theorem no_match_message_before_filter (walk : list Entry) :
  (main walk = NoMatchingRows <-> combined_rows walk = [])
  /\ (existsb has_dia_key (combined_rows walk) = true ->
      filter dia_at_least_80 (combined_rows walk) = [] ->
      main walk = Summary []).
Proof.
  split; [split|].
  - intros Em. destruct (combined_rows walk) as [|r l] eqn:Ec; [reflexivity|].
    destruct (existsb has_dia_key (r :: l)) eqn:E.
    + rewrite main_summary in Em by now rewrite Ec. discriminate.
    + rewrite main_key_error in Em; [discriminate | congruence |].
      now rewrite Ec.
  - apply main_no_rows.
  - intros E Ef. rewrite (main_summary walk E). now rewrite Ef.
Qed.

(** C4: the table holds exactly the rows, in their order, whose diameter is
    a number of 80 or more, numbered from 1: 79 is out, 80 is in, and a row
    without a diameter, so every diagnostic record, is out. *)
Theorem final_table_is_dia_filter (walk : list Entry)
    (table : list (nat * record)) :
  main walk = Summary table ->
  map snd table = filter dia_at_least_80 (combined_rows walk)
  /\ map fst table = seq 1 (List.length table)
  /\ (forall r,
        In r (map snd table) <->
        In r (combined_rows walk)
        /\ exists d, dia_of r = Some d /\ (80 <= d)%Z)
  /\ (forall tdr file message,
        ~ In (Diagnostic tdr file message) (map snd table))
  /\ (forall r, dia_of r = Some 79%Z -> dia_at_least_80 r = false)
  /\ (forall r, dia_of r = Some 80%Z -> dia_at_least_80 r = true)
  /\ (forall r, dia_of r = None -> dia_at_least_80 r = false).
Proof.
  intros ->%main_summary_inv.
  set (kept := filter dia_at_least_80 (combined_rows walk)).
  destruct (numbered_rows kept 1) as [Es Ef].
  assert (Hin : forall r,
             In r kept <->
             In r (combined_rows walk)
             /\ exists d, dia_of r = Some d /\ (80 <= d)%Z).
  { intros r. unfold kept. rewrite filter_In. unfold dia_at_least_80.
    split; intros [Hr Hd]; (split; [exact Hr|]).
    - destruct (dia_of r) as [d|]; [|discriminate].
      exists d. split; [reflexivity | now apply Z.leb_le].
    - destruct Hd as (d & -> & Hd). now apply Z.leb_le. }
  rewrite Es. split; [reflexivity|].
  split; [rewrite Ef, length_combine, length_seq; now rewrite Nat.min_id|].
  split; [exact Hin|].
  split; [intros tdr file message [_ (d & Ed & _)]%Hin; discriminate Ed|].
  unfold dia_at_least_80. repeat split; intros r ->; reflexivity.
Qed.

End Generic.

Lemma no_match_message_before_filter_witness :
  main [] = NoMatchingRows /\ main [entry_b] = Summary [].
Proof.
  split.
  - apply (proj2 (proj1 (no_match_message_before_filter []))). reflexivity.
  - apply (proj2 (no_match_message_before_filter [entry_b])); reflexivity.
Defined.

(** Folder TDR-B alone: its one pipe is 60 mm wide, nothing passes the
    filter, and an empty table is shown, not the message. *)
Lemma empty_table_is_shown :
  filter dia_at_least_80 (combined_rows [entry_b]) = []
  /\ main [entry_b] = Summary []
  /\ ~ Spec.empty_result_reported.
Proof.
  split; [reflexivity|]. split; [reflexivity|].
  intros Hclaim. specialize (Hclaim [entry_b] eq_refl). discriminate Hclaim.
Qed.

(** A batch of unreadable files only: the frame has no [DIA] column and
    line 118 raises. *)
Lemma diagnostics_only_batch : main [entry_broken] = KeyError "DIA".
Proof. reflexivity. Qed.

Lemma final_table_is_dia_filter_witness :
  map snd [(1, Extracted item_a)]
  = filter dia_at_least_80 (combined_rows [entry_a; entry_b; entry_broken]).
Proof.
  refine (proj1 (final_table_is_dia_filter [entry_a; entry_b; entry_broken]
                   [(1, Extracted item_a)] _)).
  vm_compute. reflexivity.
Defined.

End Batch.

(** * Further properties of the code *)

(** ** More on texts *)
Module TextMore.
Import Text TextFacts.

Lemma append_assoc (a b c : string) : (a ++ b) ++ c = a ++ b ++ c.
Proof. induction a as [|x a IH]; simpl; [reflexivity | now rewrite IH]. Qed.

Lemma append_nil_r (a : string) : a ++ "" = a.
Proof. induction a as [|x a IH]; simpl; [reflexivity | now rewrite IH]. Qed.

Lemma lower_append (a b : string) : lower (a ++ b) = lower a ++ lower b.
Proof. induction a as [|x a IH]; simpl; [reflexivity | now rewrite IH]. Qed.

Lemma all_chars_append (p : ascii -> bool) (a b : string) :
  all_chars p (a ++ b) = all_chars p a && all_chars p b.
Proof.
  induction a as [|x a IH]; simpl; [reflexivity|].
  now rewrite IH, andb_assoc.
Qed.

Lemma all_chars_impl (p q : ascii -> bool) (s : string) :
  (forall c, p c = true -> q c = true) ->
  all_chars p s = true -> all_chars q s = true.
Proof.
  intros Hpq. induction s as [|c s IH]; simpl; [reflexivity|].
  intros [Hc Hs]%andb_true_iff. now rewrite (Hpq c Hc), IH.
Qed.

(** Two ways of cutting one text: one cut lies before the other. *)
Lemma append_split (s b w post : string) :
  s ++ b = w ++ post ->
  (exists x, s = w ++ x) \/ (exists y, y <> "" /\ s ++ y = w).
Proof.
  revert w; induction s as [|c s IH]; intros w E.
  - destruct w as [|a w]; [left; now exists "" | right].
    exists (String a w). now split.
  - destruct w as [|a w]; [left; now exists (String c s)|].
    simpl in E. injection E as -> E.
    destruct (IH w E) as [[x ->]|(y & Hy & <-)].
    + left. now exists x.
    + right. now exists y.
Qed.

Lemma endswith_spec (s w : string) :
  endswith s w = true <-> exists pre, s = pre ++ w.
Proof.
  induction s as [|c s IH]; cbn [endswith].
  - rewrite orb_false_r, String.eqb_eq. split.
    + intros <-. now exists "".
    + intros [[|x pre] E]; [exact E | discriminate].
  - rewrite orb_true_iff, IH, String.eqb_eq. split.
    + intros [<-|[pre ->]]; [now exists "" | now exists (String c pre)].
    + intros [[|x pre] E]; [now left | right].
      injection E as _ ->. now exists pre.
Qed.

(** A text found in a lower-cased text is itself in lower case. *)
Lemma startswith_lower (s k : string) :
  startswith (lower s) k = true -> lower k = k.
Proof.
  revert s; induction k as [|a k IH]; intros s; [reflexivity|].
  destruct s as [|c s]; simpl; [discriminate|].
  destruct (Ascii.eqb_spec a (lower_char c)) as [->|]; [|discriminate].
  simpl. intros Hk. now rewrite lower_char_idem, (IH s Hk).
Qed.

Lemma contains_lower (s k : string) :
  contains k (lower s) = true -> lower k = k.
Proof.
  induction s as [|c s IH]; simpl.
  - rewrite orb_false_r. destruct k; [reflexivity | discriminate].
  - intros [Hs|Hc]%orb_true_iff; [|now apply IH].
    now apply (startswith_lower (String c s)).
Qed.

End TextMore.

(** ** Illegal characters *)
Module CleanFacts.
Import Text TextFacts TextMore Re Pandas App Fixtures.

Lemma remove_clean (p : ascii -> bool) (s : string) :
  all_chars (fun c => negb (p c)) (remove p s) = true.
Proof.
  induction s as [|c s IH]; simpl; [reflexivity|].
  destruct (p c) eqn:E; simpl; [exact IH | now rewrite E, IH].
Qed.

Lemma remove_fixed (p : ascii -> bool) (s : string) :
  remove p s = s <-> all_chars (fun c => negb (p c)) s = true.
Proof.
  split.
  - intros <-. apply remove_clean.
  - induction s as [|c s IH]; simpl; [reflexivity|].
    intros [Hc Hs]%andb_true_iff. apply negb_true_iff in Hc.
    now rewrite Hc, IH.
Qed.

Lemma remove_append (p : ascii -> bool) (a b : string) :
  remove p (a ++ b) = remove p a ++ remove p b.
Proof.
  induction a as [|c a IH]; simpl; [reflexivity|].
  destruct (p c); simpl; now rewrite IH.
Qed.

Section Generic.
Context `{Numeric}.
Variable illegal : ascii -> bool.

(** X1: [clean_illegal_chars] leaves no illegal character in a text,
    changes nothing in a text that has none (and only then returns the text
    it was given), works piece by piece on a text put together from two, is
    idempotent, and returns every value that is not a text as it is. *)
Theorem clean_illegal_chars_removes_all :
  (forall s, exists t,
      clean_illegal_chars illegal (Text s) = Text t
      /\ all_chars (fun c => negb (illegal c)) t = true)
  /\ (forall s,
        clean_illegal_chars illegal (Text s) = Text s
        <-> all_chars (fun c => negb (illegal c)) s = true)
  /\ (forall a b,
        clean_illegal_chars illegal (Text (a ++ b))
        = Text (remove illegal a ++ remove illegal b))
  /\ (forall v,
        clean_illegal_chars illegal (clean_illegal_chars illegal v)
        = clean_illegal_chars illegal v)
  /\ (forall x, clean_illegal_chars illegal (Num x) = Num x)
  /\ clean_illegal_chars illegal NaN = NaN.
Proof.
  split; [|split; [|split; [|split; [|split]]]].
  - intros s. exists (remove illegal s). split; [reflexivity|].
    apply remove_clean.
  - intros s. simpl. rewrite <- remove_fixed.
    split; [now intros [= ->] | now intros ->].
  - intros a b. simpl. now rewrite remove_append.
  - intros [s|x|]; simpl; [|reflexivity..].
    f_equal. apply remove_fixed, remove_clean.
  - reflexivity.
  - reflexivity.
Qed.

End Generic.

(** With openpyxl's class: a bell and a vertical tab go, the tab and the
    line feed stay. *)
Lemma clean_illegal_chars_removes_all_witness :
  clean_illegal_chars openpyxl_illegal
    (Text (String "007"%char "DI" ++ String "009"%char "Pipe"
           ++ String "011"%char (String "010"%char "100mm")))
  = Text ("DI" ++ String "009"%char "Pipe" ++ String "010"%char "100mm").
Proof.
  rewrite (proj1 (proj2 (proj2 (clean_illegal_chars_removes_all
                                  openpyxl_illegal)))).
  reflexivity.
Defined.

End CleanFacts.

(** ** More on the diameter parser *)
Module DiameterMore.
Import Text TextFacts TextMore Re ReFacts App.

Lemma int_from_nonneg (acc : Z) (s : string) :
  (0 <= acc)%Z -> (0 <= int_from acc s)%Z.
Proof.
  revert acc; induction s as [|c s IH]; intros acc Hacc; cbn [int_from];
    [exact Hacc|].
  apply IH. unfold digit_value.
  pose proof (Nat2Z.is_nonneg (code c - 48)). lia.
Qed.

(** X2: the diameter found is never negative: a sign in front of the digits
    is no part of the match. *)
Theorem extract_dia_nonneg (text : string) (n : Z) :
  extract_dia text = Some n -> (0 <= n)%Z.
Proof.
  unfold extract_dia.
  destruct (search dia_pattern (lower text)); [|discriminate].
  intros [= <-]. now apply int_from_nonneg.
Qed.

Lemma extract_dia_nonneg_witness :
  extract_dia "Pipe -150mm" = Some 150%Z /\ (0 <= 150)%Z.
Proof.
  split; [reflexivity|].
  apply (extract_dia_nonneg "Pipe -150mm" 150). reflexivity.
Defined.

(** A text cut off inside digits, white space and mm holds no mm. *)
Lemma cut_has_no_mm (x s y : string) :
  all_chars not_m x = true -> s ++ y = x ++ "mm" -> y <> "" ->
  contains "mm" s = false.
Proof.
  revert s; induction x as [|a x IH]; intros s Hx E Hy.
  - destruct s as [|c [|c' s]]; [reflexivity| |].
    + simpl in E. injection E as -> E. reflexivity.
    + simpl in E. injection E as Ec Ec' E.
      destruct s; [|discriminate]. simpl in E. congruence.
  - simpl in Hx. apply andb_true_iff in Hx as [Ha Hx].
    destruct s as [|c s]; [reflexivity|].
    simpl in E. injection E as -> E.
    cbn [contains startswith]. rewrite (IH s Hx E Hy), orb_false_r.
    unfold not_m in Ha. apply negb_true_iff in Ha.
    destruct (Ascii.eqb_spec "m"%char a) as [<-|]; [|reflexivity].
    discriminate Ha.
Qed.

Lemma digits_and_spaces_not_m (d ws : string) :
  all_chars is_digit d = true -> all_chars is_space ws = true ->
  all_chars not_m (d ++ ws) = true.
Proof.
  intros Hd Hw. rewrite all_chars_append.
  rewrite (all_chars_impl is_digit not_m d), (all_chars_impl is_space not_m ws);
    auto;
    intros [[] [] [] [] [] [] [] []]; (reflexivity || discriminate).
Qed.

(** An occurrence at the start of a text is there whatever follows. *)
Lemma dia_occurrence_extend (digits s b : string) :
  Spec.dia_occurrence digits s -> Spec.dia_occurrence digits (s ++ b).
Proof.
  intros (ws & post & -> & Hne & Hd & Hw). exists ws, (post ++ b).
  repeat split; auto. now rewrite !append_assoc.
Qed.

(** No occurrence at the start of a text that holds mm somewhere: none
    either when the text goes on. *)
Lemma dia_pattern_extend_none (s b : string) :
  dia_pattern s = None -> contains "mm" s = true ->
  dia_pattern (s ++ b) = None.
Proof.
  intros Hn Hmm. destruct (dia_pattern (s ++ b)) as [d|] eqn:E; [|reflexivity].
  exfalso. apply dia_pattern_spec in E as (ws & post & E & Hne & Hd & Hw).
  rewrite <- (append_assoc ws), <- (append_assoc d) in E.
  apply append_split in E as [[x ->]|(y & Hy & E)].
  - apply (proj1 (dia_pattern_none _) Hn d). exists ws, x.
    repeat split; auto. now rewrite !append_assoc.
  - rewrite <- append_assoc in E.
    rewrite (cut_has_no_mm (d ++ ws) s y) in Hmm;
      [discriminate | | exact E | exact Hy].
    now apply digits_and_spaces_not_m.
Qed.

Lemma dia_occurrence_has_mm (digits s : string) :
  Spec.dia_occurrence digits s -> contains "mm" s = true.
Proof.
  intros (ws & post & -> & _). apply contains_spec.
  exists (digits ++ ws), post. now rewrite !append_assoc.
Qed.

Lemma contains_later (k s : string) (c : ascii) :
  contains k s = true -> contains k (String c s) = true.
Proof. intros E. cbn [contains]. now rewrite E, orb_true_r. Qed.

Lemma search_dia_has_mm (s g : string) :
  search dia_pattern s = Some g -> contains "mm" s = true.
Proof.
  induction s as [|c s IH]; cbn [search].
  - destruct (dia_pattern "") eqn:E; [|discriminate].
    intros _. now apply dia_pattern_spec, dia_occurrence_has_mm in E.
  - destruct (dia_pattern (String c s)) eqn:E.
    + intros _. now apply dia_pattern_spec, dia_occurrence_has_mm in E.
    + intros Hs. now apply contains_later, IH.
Qed.

Lemma search_dia_extend (a b g : string) :
  search dia_pattern a = Some g -> search dia_pattern (a ++ b) = Some g.
Proof.
  induction a as [|c a IH].
  - cbn [search]. destruct (dia_pattern "") eqn:E; [|discriminate].
    apply dia_pattern_spec in E as (ws & post & E & Hne & _).
    destruct s; [congruence | discriminate].
  - change (String c a ++ b) with (String c (a ++ b)). cbn [search].
    destruct (dia_pattern (String c a)) as [r|] eqn:E.
    + intros [= ->].
      apply dia_pattern_spec, (dia_occurrence_extend _ _ b),
        dia_pattern_spec in E.
      change (String c a ++ b) with (String c (a ++ b)) in E. now rewrite E.
    + intros Hs.
      pose proof (dia_pattern_extend_none (String c a) b E
                    (contains_later _ _ c (search_dia_has_mm a g Hs))) as En.
      change (String c a ++ b) with (String c (a ++ b)) in En.
      rewrite En. now apply IH.
Qed.

(** X3: only the first match counts.  When a description gives a diameter,
    the same description with any text after it gives the same diameter. *)
Theorem extract_dia_ignores_what_follows (text more : string) (n : Z) :
  extract_dia text = Some n -> extract_dia (text ++ more) = Some n.
Proof.
  unfold extract_dia. rewrite lower_append.
  destruct (search dia_pattern (lower text)) as [g|] eqn:E; [|discriminate].
  intros [= <-]. now rewrite (search_dia_extend _ (lower more) g E).
Qed.

Lemma extract_dia_ignores_what_follows_witness :
  extract_dia ("DI Pipe 100mm" ++ " reducing to 80mm") = Some 100%Z.
Proof.
  apply (extract_dia_ignores_what_follows "DI Pipe 100mm").
  reflexivity.
Defined.

End DiameterMore.

(** ** More on one file *)
Module FileMore.
Import Text TextFacts TextMore Re ReFacts Pandas App ExtractorFacts FileFacts
       Fixtures.

Lemma replace_not_key (table : list (string * string)) (v : string) :
  ~ In v (map fst table) -> replace table v = v.
Proof.
  induction table as [|[key new] table IH]; simpl; [reflexivity|].
  intros Hn. destruct (String.eqb_spec v key) as [->|_]; [tauto|].
  apply IH. tauto.
Qed.

Lemma existsb_filter {A : Type} (f g : A -> bool) (l : list A) :
  (forall x, f x = true -> g x = true) ->
  existsb f (filter g l) = existsb f l.
Proof.
  intros Hfg. induction l as [|x l IH]; simpl; [reflexivity|].
  destruct (g x) eqn:Eg; simpl; rewrite IH; [reflexivity|].
  destruct (f x) eqn:Ef; [|reflexivity].
  rewrite (Hfg x Ef) in Eg. discriminate.
Qed.

(** X10: a keyword is looked for as it is written in the lower-cased
    label, so a keyword that is not in lower case matches no label:
    [find_column] gives what it gives with such keywords left out. *)
Theorem find_column_keywords_lower_case :
  (forall k label, lower k <> k -> contains k (lower label) = false)
  /\ (forall columns keywords,
        find_column columns keywords
        = find_column columns (filter (fun k => lower k =? k) keywords)).
Proof.
  split.
  - intros k label Hk. destruct (contains k (lower label)) eqn:E; [|reflexivity].
    now apply contains_lower in E.
  - intros columns keywords.
    induction columns as [|col columns IH]; simpl; [reflexivity|].
    rewrite existsb_filter, IH; [reflexivity|].
    intros k Hk. apply String.eqb_eq. now apply (contains_lower col).
Qed.

Section Generic.
Context `{Numeric}.

Lemma normalize_unit_not_a_synonym (c : cell) :
  ~ In (normalize_unit c) ["per metre"; "rm"; "rmt"; "mtr"; "mtrs"].
Proof.
  unfold normalize_unit. generalize (lower (strip (cell_str c))) as t.
  intros t. unfold unit_synonyms. cbn [replace].
  repeat match goal with
         | |- context [String.eqb t ?key] =>
             destruct (String.eqb_spec t key) as [->|?];
             [simpl; intros [E|[E|[E|[E|[E|[]]]]]]; discriminate E|]
         end.
  simpl. intuition congruence.
Qed.

Lemma normalize_unit_strip (c : cell) :
  strip (normalize_unit c) = normalize_unit c.
Proof. apply strip_replace_synonyms. Qed.

Lemma normalize_unit_lower (c : cell) :
  lower (normalize_unit c) = normalize_unit c.
Proof.
  unfold normalize_unit.
  assert (Ht : lower (lower (strip (cell_str c))) = lower (strip (cell_str c)))
    by apply lower_idem.
  revert Ht. generalize (lower (strip (cell_str c))) as t. intros t Ht.
  unfold unit_synonyms. cbn [replace]. by_synonym t. exact Ht.
Qed.

(** X4: the unit shown is in normal form.  What the normaliser returns has
    no white space at its ends, is in lower case and is none of the
    spellings per metre, rm, rmt, mtr, mtrs; normalising it again changes
    nothing; and the [Units] field of every extracted row is such a value. *)
Theorem units_in_normal_form :
  (forall c,
     strip (normalize_unit c) = normalize_unit c
     /\ lower (normalize_unit c) = normalize_unit c
     /\ ~ In (normalize_unit c) ["per metre"; "rm"; "rmt"; "mtr"; "mtrs"]
     /\ normalize_unit (Text (normalize_unit c)) = normalize_unit c)
  /\ (forall book tdr_name file_name item,
        In (Extracted item) (process_boq_file book tdr_name file_name) ->
        strip (Units item) = Units item
        /\ lower (Units item) = Units item
        /\ ~ In (Units item) ["per metre"; "rm"; "rmt"; "mtr"; "mtrs"]).
Proof.
  split.
  - intros c. split; [apply normalize_unit_strip|].
    split; [apply normalize_unit_lower|].
    split; [apply normalize_unit_not_a_synonym|].
    unfold normalize_unit at 1. cbn [cell_str].
    rewrite normalize_unit_strip, normalize_unit_lower.
    apply replace_not_key, normalize_unit_not_a_synonym.
  - intros book tdr_name file_name item Hin.
    apply extracted_inv in Hin
      as (df_raw & i & df & d & u & row & _ & _ & _ & _ & _ & _ & _ & ->).
    rewrite units_of_build_item.
    split; [apply normalize_unit_strip|].
    split; [apply normalize_unit_lower | apply normalize_unit_not_a_synonym].
Qed.

(** X5: every extracted row is a pipe row by its own description: the
    description, in lower case, contains one of the nine keywords, and the
    diameter of the record is what [extract_dia] reads in that description. *)
Theorem extracted_rows_are_pipe_rows book tdr_name file_name item :
  In (Extracted item) (process_boq_file book tdr_name file_name) ->
  (exists k,
     In k ["pipe"; "di"; "ci"; "m.s"; "k-7"; "k-9"; "hdpe"; "pvc"; "upvc"]
     /\ substring_of k (lower (Item_Description item)))
  /\ DIA item = extract_dia (Item_Description item).
Proof.
  intros Hin.
  apply extracted_inv in Hin
    as (df_raw & i & df & d & u & row & _ & _ & _ & _ & _ & _ & Hp & ->).
  split; [|reflexivity].
  rewrite <- (is_pipe_row_normalized d u) in Hp.
  unfold is_pipe_row in Hp. apply existsb_exists in Hp as (k & Hk & Hc).
  exists k. split; [exact Hk | now apply contains_spec].
Qed.

Lemma extract_dia_by_lower (s s' : string) :
  lower s = lower s' -> extract_dia s = extract_dia s'.
Proof. unfold extract_dia. now intros ->. Qed.

(** X11: letter case never matters.  Two rows whose descriptions differ in
    letter case only are classified alike and get the same K-9 flag, K-7
    flag and diameter. *)
Theorem description_case_is_ignored tdr_name file_name desc_col unit_col
    qty_col rate_col (row row' : Row) :
  lower (cell_str (row desc_col)) = lower (cell_str (row' desc_col)) ->
  is_pipe_row desc_col row = is_pipe_row desc_col row'
  /\ K_9 (build_item tdr_name file_name desc_col unit_col qty_col rate_col row)
     = K_9 (build_item tdr_name file_name desc_col unit_col qty_col rate_col
              row')
  /\ K_7 (build_item tdr_name file_name desc_col unit_col qty_col rate_col row)
     = K_7 (build_item tdr_name file_name desc_col unit_col qty_col rate_col
              row')
  /\ DIA (build_item tdr_name file_name desc_col unit_col qty_col rate_col row)
     = DIA (build_item tdr_name file_name desc_col unit_col qty_col rate_col
              row').
Proof.
  intros E. unfold is_pipe_row. cbn [K_9 K_7 DIA build_item]. rewrite E.
  repeat split. now apply extract_dia_by_lower.
Qed.

(** X13: the rate and the quantity of a record are read in the sheet row
    the record is built from.  With both columns present, and neither of
    them the unit column, each record holds [pd.to_numeric] of the rate cell
    and of the quantity cell of its own row. *)
Theorem rate_and_quantity_of_own_row book tdr_name file_name df_raw i df
    desc_col unit_col qty_col rate_col :
  read_raw book = inr df_raw ->
  header_row_index df_raw = Some i ->
  read_header book i = inr df ->
  find_column (columns df) ["desc"; "item"] = Some desc_col ->
  find_column (columns df) ["unit"] = Some unit_col ->
  find_column (columns df) ["qty"; "quantity"] = Some qty_col ->
  find_column (columns df) ["rate"; "amount"; "estimate"] = Some rate_col ->
  qty_col <> unit_col ->
  rate_col <> unit_col ->
  Forall2 (fun r row =>
             exists item,
               r = Extracted item
               /\ estimate_rate item = to_numeric (row rate_col)
               /\ Quantity item = to_numeric (row qty_col))
          (process_boq_file book tdr_name file_name)
          (filter (is_pipe_row desc_col) (rows df)).
Proof.
  intros Er Eh Es Ed Eu Eq Ert Hq Hr.
  rewrite (process_boq_file_success _ _ _ _ _ _ _ _ Er Eh Es Ed Eu).
  rewrite Eq, Ert.
  assert ((qty_col =? "") = false) as Tq
    by (eapply find_column_truthy; [|exact Eq]; nonempty_keywords).
  assert ((rate_col =? "") = false) as Tr
    by (eapply find_column_truthy; [|exact Ert]; nonempty_keywords).
  apply String.eqb_neq in Hq, Hr.
  induction (filter (is_pipe_row desc_col) (rows df)) as [|row l IH];
    simpl; constructor; [|exact IH].
  eexists. split; [reflexivity|].
  cbn [estimate_rate Quantity build_item]. rewrite Tq, Tr.
  unfold with_normalized_unit, set_cell. now rewrite Hq, Hr.
Qed.

(** Every record of a file carries the two names the file was read under. *)
Lemma process_boq_file_provenance book tdr_name file_name r :
  In r (process_boq_file book tdr_name file_name) ->
  record_folder r = tdr_name /\ record_file r = file_name.
Proof.
  intros Hin. destruct r as [a b c|item].
  - destruct (process_boq_file_shape book tdr_name file_name)
      as [[message E]|[items E]]; rewrite E in Hin.
    + destruct Hin as [[= <- <- _]|[]]. now split.
    + apply in_map_iff in Hin as (x & [=] & _).
  - apply extracted_inv in Hin
      as (df_raw & i & df & d & u & row & _ & _ & _ & _ & _ & _ & _ & ->).
    now split.
Qed.

End Generic.

Lemma units_in_normal_form_witness :
  strip (Units item_a) = Units item_a
  /\ lower (Units item_a) = Units item_a
  /\ ~ In (Units item_a) ["per metre"; "rm"; "rmt"; "mtr"; "mtrs"].
Proof.
  apply (proj2 units_in_normal_form (book_of sheet_a) "TDR-A" "boq.xlsx").
  left. reflexivity.
Defined.

Lemma rate_and_quantity_of_own_row_witness :
  Forall2 (fun r row =>
             exists item,
               r = Extracted item
               /\ estimate_rate item = to_numeric (row "Rate")
               /\ Quantity item = to_numeric (row "Qty"))
          (process_boq_file (book_of sheet_a) "TDR-A" "boq.xlsx")
          (filter (is_pipe_row "Item Description") (rows (frame_of sheet_a 1))).
Proof.
  apply (rate_and_quantity_of_own_row (book_of sheet_a) "TDR-A" "boq.xlsx"
           sheet_a 1 (frame_of sheet_a 1) "Item Description" "Unit"
           "Qty" "Rate");
    (reflexivity || discriminate).
Defined.

Lemma extracted_rows_are_pipe_rows_witness :
  (exists k,
     In k ["pipe"; "di"; "ci"; "m.s"; "k-7"; "k-9"; "hdpe"; "pvc"; "upvc"]
     /\ substring_of k (lower (Item_Description item_a)))
  /\ DIA item_a = extract_dia (Item_Description item_a).
Proof.
  apply (extracted_rows_are_pipe_rows (book_of sheet_a) "TDR-A" "boq.xlsx").
  left. reflexivity.
Defined.

Lemma description_case_is_ignored_witness :
  is_pipe_row "Description" (fun _ => Text "HDPE PIPE 110MM")
  = is_pipe_row "Description" (fun _ => Text "hdpe pipe 110mm")
  /\ DIA (build_item "T" "f" "Description" "Unit" None None
            (fun _ => Text "HDPE PIPE 110MM"))
     = DIA (build_item "T" "f" "Description" "Unit" None None
              (fun _ => Text "hdpe pipe 110mm")).
Proof.
  destruct (description_case_is_ignored "T" "f" "Description" "Unit" None None
              (fun _ => Text "HDPE PIPE 110MM")
              (fun _ => Text "hdpe pipe 110mm") eq_refl)
    as (Hp & _ & _ & Hd).
  split; [exact Hp | exact Hd].
Defined.

End FileMore.

(** ** More on the header locator *)
Module HeaderMore.
Import Text Pandas App Fixtures.

Section Generic.
Context `{Numeric}.

Lemma window_is_first_thirty (df_raw : RawSheet) :
  firstn (Nat.min 30 (List.length df_raw)) df_raw = firstn 30 df_raw.
Proof.
  destruct (Nat.le_gt_cases (List.length df_raw) 30) as [Hl|Hl].
  - rewrite Nat.min_r by exact Hl.
    now rewrite firstn_all, (firstn_all2 df_raw Hl).
  - rewrite Nat.min_l by lia. reflexivity.
Qed.

(** X9: the header is looked for in the first thirty rows and nowhere
    else: two sheets with the same first thirty rows have the same header
    row, or both have none. *)
Theorem header_depends_on_first_thirty_rows (sheet1 sheet2 : RawSheet) :
  firstn 30 sheet1 = firstn 30 sheet2 ->
  header_row_index sheet1 = header_row_index sheet2.
Proof.
  intros E. unfold header_row_index.
  now rewrite !window_is_first_thirty, E.
Qed.

End Generic.

(** Thirty banner rows: what comes below them is never read. *)
Lemma header_depends_on_first_thirty_rows_witness :
  header_row_index (banners 30)
  = header_row_index (repeat banner_row 30 ++ [banner_row; title_row])%list.
Proof.
  apply header_depends_on_first_thirty_rows. reflexivity.
Defined.

End HeaderMore.

(** ** More on the batch *)
Module BatchMore.
Import Text TextFacts TextMore Pandas App FileFacts FileMore Batch Fixtures.

(** X7: which files are read.  A file is read exactly when its name in
    lower case ends in .xls or .xlsx and the name does not begin with the
    lock-file mark; the test on the extension ignores letter case, the test
    on the mark does not need to. *)
Theorem is_boq_file_spec (name : string) :
  is_boq_file name = true <->
  ((exists stem, lower name = stem ++ ".xls")
   \/ (exists stem, lower name = stem ++ ".xlsx"))
  /\ ~ (exists rest, name = "~$" ++ rest).
Proof.
  unfold is_boq_file.
  rewrite andb_true_iff, orb_true_iff, negb_true_iff, !endswith_spec.
  rewrite <- startswith_spec.
  destruct (startswith name "~$"); intuition congruence.
Qed.

Section Generic.
Context `{Numeric}.

(** X8: the files that are not read leave no trace: the records of a walk
    are those of the walk with every other file taken out, and so is what
    the page shows. *)
Theorem skipped_files_leave_no_trace (walk : list Entry) :
  combined_rows walk
  = combined_rows (filter (fun e => is_boq_file (file e)) walk)
  /\ main walk = main (filter (fun e => is_boq_file (file e)) walk).
Proof.
  assert (E : combined_rows walk
              = combined_rows (filter (fun e => is_boq_file (file e)) walk)).
  { induction walk as [|e walk IH]; simpl; [reflexivity|].
    destruct (is_boq_file (file e)) eqn:Eb; simpl; [|exact IH].
    now rewrite Eb, IH. }
  split; [exact E|]. unfold main. now rewrite <- E.
Qed.

Lemma combined_rows_in (walk : list Entry) (r : record) :
  In r (combined_rows walk) ->
  exists e,
    In e walk
    /\ is_boq_file (file e) = true
    /\ In r (process_boq_file (workbook e) (tdr_folder e) (file e)).
Proof.
  induction walk as [|e walk IH]; simpl; [intros []|].
  intros [Hin|Hin]%in_app_iff.
  - destruct (is_boq_file (file e)) eqn:Eb; [|destruct Hin].
    exists e. split; [now left|]. now split.
  - destruct (IH Hin) as (e' & He' & Hrest). exists e'.
    split; [now right | exact Hrest].
Qed.

(** X6: every record of the batch, diagnostic or extracted, comes from a
    file of the walk that passes the test on its name, and names that
    file's folder and that file. *)
Theorem records_name_their_file (walk : list Entry) (r : record) :
  In r (combined_rows walk) ->
  exists e,
    In e walk
    /\ is_boq_file (file e) = true
    /\ In r (process_boq_file (workbook e) (tdr_folder e) (file e))
    /\ record_folder r = tdr_folder e
    /\ record_file r = file e.
Proof.
  intros (e & He & Eb & Hin)%combined_rows_in. exists e.
  split; [exact He|]. split; [exact Eb|]. split; [exact Hin|].
  exact (process_boq_file_provenance _ _ _ _ Hin).
Qed.

(** X14: from description to table.  When a table is shown, an extracted
    row of the batch is in it exactly when [extract_dia] reads in its
    description a diameter of 80 or more. *)
Theorem table_rows_by_description (walk : list Entry)
    (table : list (nat * record)) (item : Item) :
  main walk = Summary table ->
  (In (Extracted item) (map snd table) <->
   In (Extracted item) (combined_rows walk)
   /\ exists n, extract_dia (Item_Description item) = Some n /\ (80 <= n)%Z).
Proof.
  intros ->%main_summary_inv.
  rewrite (proj1 (numbered_rows _ 1)), filter_In.
  unfold dia_at_least_80. cbn [dia_of].
  split; intros [Hin Hd]; (split; [exact Hin|]);
    pose proof Hin as (e & _ & _ & Hp)%combined_rows_in;
    apply extracted_inv in Hp
      as (df_raw & i & df & d & u & row & _ & _ & _ & _ & _ & _ & _ & ->);
    cbn [DIA Item_Description build_item] in *.
  - destruct (extract_dia _) as [n|]; [|discriminate].
    exists n. split; [reflexivity | now apply Z.leb_le].
  - destruct Hd as (n & -> & Hn). now apply Z.leb_le.
Qed.

(** X12: when the page fails.  [main] ends in a [KeyError], for the key
    DIA, exactly when the files gave records and every one of them is a
    diagnostic record; one extracted row in the batch is enough for a table
    to be shown. *)
Theorem main_fails_on_diagnostics_only (walk : list Entry) :
  (forall key,
     main walk = KeyError key <->
     key = "DIA"
     /\ combined_rows walk <> []
     /\ forall r, In r (combined_rows walk) ->
                  exists tdr file message, r = Diagnostic tdr file message)
  /\ ((exists item, In (Extracted item) (combined_rows walk)) ->
      exists table, main walk = Summary table).
Proof.
  assert (Hall : existsb has_dia_key (combined_rows walk) = false <->
                 forall r, In r (combined_rows walk) ->
                           exists tdr file message,
                             r = Diagnostic tdr file message).
  { split.
    - intros E r Hr. destruct r as [a b c|item]; [now exists a, b, c|].
      assert (existsb has_dia_key (combined_rows walk) = true)
        by (apply existsb_exists; now exists (Extracted item)).
      congruence.
    - intros Hd. destruct (existsb _ _) eqn:E; [|reflexivity].
      apply existsb_exists in E as (r & Hr & Hk).
      destruct (Hd r Hr) as (a & b & c & ->). discriminate Hk. }
  split.
  - intros key. split.
    + intros Em. destruct (combined_rows walk) as [|r l] eqn:Ec.
      { rewrite (main_no_rows walk Ec) in Em. discriminate. }
      destruct (existsb has_dia_key (r :: l)) eqn:E.
      * rewrite main_summary in Em by now rewrite Ec. discriminate.
      * rewrite main_key_error in Em; [|congruence|now rewrite Ec].
        injection Em as <-. split; [reflexivity|]. split; [discriminate|].
        now apply Hall.
    + intros (-> & Hne & Hd). apply main_key_error; [exact Hne|].
      now apply Hall.
  - intros (item & Hin). eexists. apply main_summary.
    apply existsb_exists. now exists (Extracted item).
Qed.

End Generic.

Lemma is_boq_file_spec_witness :
  is_boq_file "Report.XLSX" = true
  /\ is_boq_file "~$Report.xlsx" = false
  /\ is_boq_file "Report.xlsm" = false.
Proof.
  split; [|split; reflexivity].
  apply (proj2 (is_boq_file_spec "Report.XLSX")). split.
  - right. now exists "report".
  - intros [rest E]. discriminate E.
Defined.

Lemma records_name_their_file_witness :
  exists e,
    In e [entry_a; entry_b; entry_broken]
    /\ is_boq_file (file e) = true
    /\ In (Extracted item_a)
          (process_boq_file (workbook e) (tdr_folder e) (file e))
    /\ record_folder (Extracted item_a) = tdr_folder e
    /\ record_file (Extracted item_a) = file e.
Proof.
  apply (records_name_their_file [entry_a; entry_b; entry_broken]).
  left. reflexivity.
Defined.

Lemma table_rows_by_description_witness :
  In (Extracted item_a) (map snd [(1, Extracted item_a)]) <->
  In (Extracted item_a) (combined_rows [entry_a; entry_b; entry_broken])
  /\ exists n,
       extract_dia (Item_Description item_a) = Some n /\ (80 <= n)%Z.
Proof.
  refine (table_rows_by_description [entry_a; entry_b; entry_broken]
            [(1, Extracted item_a)] item_a _).
  vm_compute. reflexivity.
Defined.

Lemma main_fails_on_diagnostics_only_witness :
  exists table, main [entry_broken; entry_a] = Summary table.
Proof.
  apply (proj2 (main_fails_on_diagnostics_only [entry_broken; entry_a])).
  exists item_a. right. left. reflexivity.
Defined.

End BatchMore.
